(** * scholar-to-coa: co-author extraction, affiliation validation, TSV export

    A shallow embedding of [scholar-to-coa.py].  Python values are modelled
    by the data the script reads from them: records with optional fields for
    the dictionaries returned by the profile source, finite sets of year
    values, insertion-ordered association lists for [dict], and a small
    state-and-exception monad for the calls that talk to the outside world
    (the profile source, the console, the pause between lookups and the
    output file). *)

From Stdlib Require Import String Ascii ZArith List Lia Bool.
From stdpp Require Import base option list gmap strings.

#[local] Set Warnings "-clear-no-such-hyp".

Import ListNotations.
Open Scope string_scope.
Open Scope Z_scope.

(** ** Python strings: [str.split(sep)] and [sep.join(parts)] *)

Module PyStr.

(** [s.split(sep)] for a non-empty separator, scanning left to right for
    non-overlapping occurrences.  [skip] counts the characters of the
    occurrence of [sep] found last that are still to be dropped.  The
    result is never empty: a string without the separator is its own single
    part, and a trailing separator yields a trailing empty part. *)
Fixpoint split_from (sep : string) (skip : nat) (s : string) : list string :=
  match s with
  | EmptyString => [EmptyString]
  | String c s' =>
      match skip with
      | S k => split_from sep k s'
      | O =>
          if String.prefix sep s
          then EmptyString :: split_from sep (String.length sep - 1) s'
          else match split_from sep 0 s' with
               | part :: parts => String c part :: parts
               | [] => [String c EmptyString]
               end
      end
  end.

Definition split (sep s : string) : list string := split_from sep 0 s.

(** [sep.join(parts)] *)
Definition join (sep : string) (parts : list string) : string :=
  String.concat sep parts.

(** [parts[-1]] on a list known to be non-empty, and [parts[:-1]]. *)
Definition last_part (parts : list string) : string := List.last parts EmptyString.
Definition but_last (parts : list string) : list string := List.removelast parts.

(** [c not in s] *)
Fixpoint lacks (c : ascii) (s : string) : Prop :=
  match s with
  | EmptyString => True
  | String d s' => d <> c /\ lacks c s'
  end.

End PyStr.

(** ** [_nsf_name_cleanup] *)

Definition reordered_name (coauthor : string) : string :=
  let name_parts := PyStr.split " " coauthor in
  if (1 <? length name_parts)%nat
  then PyStr.last_part name_parts ++ ", " ++ PyStr.join " " (PyStr.but_last name_parts)
  else coauthor.

Definition _nsf_name_cleanup (coauthors : list string) : list string :=
  List.map reordered_name coauthors.

(** ** Values, exceptions and records read from the profile source *)

(** A publication year as the script sees it: the profile source delivers
    [pub_year] as a string on some records and as an integer on others, and
    the script stores and compares whatever it is given. *)
Inductive pyval :=
| VStr (s : string)
| VInt (z : Z).

Global Instance pyval_eq_dec : EqDecision pyval.
Proof. solve_decision. Defined.

Global Instance pyval_countable : Countable pyval.
Proof.
  refine (inj_countable'
            (fun v => match v with VStr s => inl s | VInt z => inr z end)
            (fun x => match x with inl s => VStr s | inr z => VInt z end) _).
  by intros [].
Defined.

Inductive exn :=
| KeyError (key : string)       (* [d[key]] on a dictionary without [key] *)
| ValueError (value : pyval)    (* [int(s)] on a string that is no integer literal *)
| TypeError                     (* ordering a [str] against an [int] *)
| SourceError (what : string)   (* raised inside the profile source *)
| OSError (what : string).      (* [open] on a path that cannot be written *)

Inductive result (A : Type) :=
| Ok (a : A)
| Raise (e : exn).
Arguments Ok {A} a.
Arguments Raise {A} e.

(** The [bib] dictionary of a publication, the publication, and an author
    record (the subject's profile and every search candidate are author
    records).  A field is [None] when the key is absent; [other_keys] tells
    whether the dictionary holds keys besides the three the script reads. *)
Record bib_entry := {
  title : option string;
  pub_year : option pyval;
  author : option string
}.

Record paper := { bib : option bib_entry }.

Record author_record := {
  name : option string;
  affiliation : option string;
  publications : option (list paper);
  other_keys : bool
}.

(** The truth value of an author dictionary ([if author], [if profile:]): a
    dictionary is false exactly when it is empty. *)
Definition truthy (a : author_record) : bool :=
  match name a, affiliation a, publications a with
  | None, None, None => other_keys a
  | _, _, _ => true
  end.

(** What iterating [scholarly.search_author(name)] produces: the candidates it
    yields, in order, and the exception that ends the iteration if the source
    fails after the last of them. *)
Record search_results := {
  yielded : list author_record;
  failure : option exn
}.

(** The profile source.  [fill] is [scholarly.fill] on an author record,
    [fill_bib] is [scholarly.fill(paper, sections=["bib"])]. *)
Record source := {
  search_author_id : string -> result (option author_record);
  search_author : string -> search_results;
  fill : author_record -> result author_record;
  fill_bib : paper -> result paper
}.

(** ** [dict]: insertion-ordered, keys unique *)

Module PyDict.

Definition dict (V : Type) : Type := list (string * V).

Fixpoint get {V} (k : string) (d : dict V) : option V :=
  match d with
  | [] => None
  | (k', v) :: d' => if decide (k' = k) then Some v else get k d'
  end.

(** [d[k] = v]: an existing key keeps its position, a new key goes last. *)
Fixpoint set {V} (k : string) (v : V) (d : dict V) : dict V :=
  match d with
  | [] => [(k, v)]
  | (k', v') :: d' =>
      if decide (k' = k) then (k, v) :: d' else (k', v') :: set k v d'
  end.

Definition keys {V} (d : dict V) : list string := List.map fst d.

(** The well-formedness every Python [dict] has. *)
Definition wf {V} (d : dict V) : Prop := NoDup (keys d).

End PyDict.

Abbreviation dict := PyDict.dict.

(** ** Sets of years and [max] *)

Abbreviation year_set := (gset pyval).

(** [a > b] *)
Definition py_gt (a b : pyval) : result bool :=
  match a, b with
  | VStr s, VStr t => Ok (String.ltb t s)
  | VInt x, VInt y => Ok (y <? x)
  | _, _ => Raise TypeError
  end.

(** [max] keeps the first item and replaces it by every later item that
    compares greater.  A set is iterated here in the order of [elements],
    which need not be the order Python iterates it in; the result does not
    depend on the order ([max_from_permutation] below). *)
Fixpoint max_from (best : pyval) (items : list pyval) : result pyval :=
  match items with
  | [] => Ok best
  | item :: rest =>
      match py_gt item best with
      | Ok true => max_from item rest
      | Ok false => max_from best rest
      | Raise e => Raise e
      end
  end.

Definition py_max (s : year_set) : result pyval :=
  match elements s with
  | [] => Raise (ValueError (VStr EmptyString))   (* [max] of an empty set *)
  | first :: rest => max_from first rest
  end.

(** ** The world: console, source calls, sleeps, and the file system *)

Inductive message :=
| MsgRetrieving (scholar_id : string)
| MsgProfileFound (my_name : option string)
| MsgExtracting (year_cutoff : Z)
| MsgProcessing (n : nat) (year_cutoff : Z)
| MsgValidatingAffiliations
| MsgValidating (n : nat)
| MsgError (coauthor : string) (e : exn)
| MsgSaved (filename : string)
| MsgNoProfile.

Inductive event :=
| Print (m : message)
| CallSearchAuthorId (scholar_id : string)
| CallSearchAuthor (coauthor : string)
| CallFill (a : author_record)
| CallFillBib (p : paper)
| Sleep (seconds : Z).

(** One line written by [csv.writer(..., delimiter=d).writerow(fields)]. *)
Record csv_row := {
  delimiter : ascii;
  fields : list pyval
}.

Record world := {
  log : list event;                    (* oldest first *)
  files : gmap string (list csv_row)
}.

Definition M (A : Type) : Type := world -> result A * world.

Definition ret {A} (a : A) : M A := fun w => (Ok a, w).

Definition raise {A} (e : exn) : M A := fun w => (Raise e, w).

Definition bind {A B} (m : M A) (k : A -> M B) : M B :=
  fun w => match m w with
           | (Ok a, w') => k a w'
           | (Raise e, w') => (Raise e, w')
           end.

(** [try: m  except Exception as e: handler(e)] *)
Definition try_except {A} (m : M A) (handler : exn -> M A) : M A :=
  fun w => match m w with
           | (Ok a, w') => (Ok a, w')
           | (Raise e, w') => handler e w'
           end.

Definition lift {A} (r : result A) : M A := fun w => (r, w).

Definition emit (e : event) : M unit :=
  fun w => (Ok tt, {| log := (log w ++ [e])%list; files := files w |}).

Definition print (m : message) : M unit := emit (Print m).

Notation "'let*' x := m 'in' k" := (bind m (fun x => k))
  (at level 10, x pattern, m at level 100, k at level 200).
Notation "m >> k" := (bind m (fun _ => k))
  (at level 100, k at level 200, right associativity).

(** [d[key]] on an optional field. *)
Definition item {A} (key : string) (field : option A) : result A :=
  match field with
  | Some a => Ok a
  | None => Raise (KeyError key)
  end.

(** ** The pipeline *)

Section Pipeline.

(** [int(s)] on a string: the integer it denotes, or [None] where Python
    raises [ValueError]. *)
Variable int_of_str : string -> option Z.

(** The profile source the script talks to. *)
Variable scholarly : source.

(** [open(filename, "w")] on the machine the script runs on: the exception
    it raises for this name (an empty name, a missing directory, a path that
    may not be written), or [None] where the file can be opened. *)
Variable open_error : string -> option exn.

(** [int(v)] *)
Definition py_int (v : pyval) : result Z :=
  match v with
  | VInt z => Ok z
  | VStr s => match int_of_str s with
              | Some z => Ok z
              | None => Raise (ValueError v)
              end
  end.

(** [get_scholar_profile] *)
Definition get_scholar_profile (scholar_id : string) : M (option author_record) :=
  emit (CallSearchAuthorId scholar_id) >>
  let* found := lift (search_author_id scholarly scholar_id) in
  match found with
  | Some a =>
      if truthy a
      then
        emit (CallFill a) >>
        let* filled := lift (fill scholarly a) in
        ret (Some filled)
      else ret None
  | None => ret None
  end.

(** [p.get("bib", {}).get("pub_year", current_year)] *)
Definition listed_year (current_year : Z) (p : paper) : pyval :=
  match bib p with
  | Some b => default (VInt current_year) (pub_year b)
  | None => VInt current_year
  end.

(** The list comprehension [filtered_papers] of [_get_unique_coauthors]. *)
Fixpoint filtered_papers (current_year year_cutoff : Z) (papers : list paper)
  : result (list paper) :=
  match papers with
  | [] => Ok []
  | p :: rest =>
      match py_int (listed_year current_year p) with
      | Raise e => Raise e
      | Ok y =>
          match filtered_papers current_year year_cutoff rest with
          | Raise e => Raise e
          | Ok kept => Ok (if year_cutoff <=? y then p :: kept else kept)
          end
      end
  end.

(** The body of [for coauthor in coauthors]. *)
Fixpoint record_coauthors (my_name : option string) (paper_year : pyval)
    (coauthors : list string) (unique_coauthors : dict year_set) : dict year_set :=
  match coauthors with
  | [] => unique_coauthors
  | coauthor :: rest =>
      if decide (Some coauthor = my_name)
      then record_coauthors my_name paper_year rest unique_coauthors
      else
        record_coauthors my_name paper_year rest
          match PyDict.get coauthor unique_coauthors with
          | Some years => PyDict.set coauthor (years ∪ {[paper_year]}) unique_coauthors
          | None => PyDict.set coauthor {[paper_year]} unique_coauthors
          end
  end.

(** [paper_full["bib"].get("pub_year", "Unknown")] *)
Definition paper_year_of (b : bib_entry) : pyval :=
  default (VStr "Unknown") (pub_year b).

(** What one filled paper adds to [unique_coauthors]. *)
Definition record_paper (my_name : option string) (b : bib_entry)
    (unique_coauthors : dict year_set) : dict year_set :=
  match author b with
  | Some authors =>
      record_coauthors my_name (paper_year_of b)
        (PyStr.split " and " authors) unique_coauthors
  | None => unique_coauthors
  end.

(** The loop [for paper in filtered_papers]; [tqdm] hands the papers on
    unchanged and only draws a progress bar. *)
Fixpoint extract_loop (my_name : option string) (papers : list paper)
    (unique_coauthors : dict year_set) : M (dict year_set) :=
  match papers with
  | [] => ret unique_coauthors
  | p :: rest =>
      emit (CallFillBib p) >>
      let* paper_full := lift (fill_bib scholarly p) in
      let* b := lift (item "bib" (bib paper_full)) in
      extract_loop my_name rest (record_paper my_name b unique_coauthors)
  end.

(** The dict comprehension that renames every key. *)
Definition rename_keys (unique_coauthors : dict year_set) : dict year_set :=
  List.fold_left
    (fun acc '(name, years) =>
       PyDict.set (List.hd EmptyString (_nsf_name_cleanup [name])) years acc)
    unique_coauthors [].

Definition _get_unique_coauthors (current_year : Z) (papers : list paper)
    (year_cutoff : Z) (my_name : option string) : M (dict year_set) :=
  let* filtered := lift (filtered_papers current_year year_cutoff papers) in
  print (MsgProcessing (length filtered) year_cutoff) >>
  let* unique_coauthors := extract_loop my_name filtered [] in
  ret (rename_keys unique_coauthors).

(** [pub.get("bib", {}).get("pub_year", "Unknown")] *)
Definition candidate_pub_year (pub : paper) : pyval :=
  match bib pub with
  | Some b => default (VStr "Unknown") (pub_year b)
  | None => VStr "Unknown"
  end.

(** The inner loop over a candidate's publications, with its [break]. *)
Fixpoint check_publications (pub_years : year_set) (affiliation : string)
    (pubs : list paper) (validated_affiliation : string) : string :=
  match pubs with
  | [] => validated_affiliation
  | pub :: rest =>
      if decide (candidate_pub_year pub ∈ pub_years)
      then affiliation
      else check_publications pub_years affiliation rest validated_affiliation
  end.

(** The loop [for result in search_results], with its [break]. *)
Fixpoint check_candidates (pub_years : year_set) (candidates : list author_record)
    (failure : option exn) (validated_affiliation : string) : M string :=
  match candidates with
  | [] =>
      match failure with
      | Some e => raise e
      | None => ret validated_affiliation
      end
  | candidate :: rest =>
      emit (CallFill candidate) >>
      let* author_filled := lift (fill scholarly candidate) in
      let affiliation := default "Unknown Institution" (affiliation author_filled) in
      let validated :=
        check_publications pub_years affiliation
          (default [] (publications author_filled)) validated_affiliation in
      if decide (validated <> "Unknown Institution")
      then ret validated
      else check_candidates pub_years rest failure validated
  end.

(** The body of the [try] block, up to the value stored for the co-author. *)
Definition lookup (coauthor : string) (pub_years : year_set) : M (string * pyval) :=
  emit (CallSearchAuthor coauthor) >>
  let search_results := search_author scholarly coauthor in
  let validated_affiliation := "Unknown Institution" in
  let* latest_pub_year :=
    lift (if decide (pub_years = ∅) then Ok (VStr "Unknown") else py_max pub_years) in
  let* validated :=
    check_candidates pub_years (yielded search_results) (failure search_results)
      validated_affiliation in
  ret (validated, latest_pub_year).

Definition placeholder : string * pyval := ("Unknown Institution", VStr "Unknown").

(** The loop [for coauthor, pub_years in coauthors_with_years.items()]. *)
Fixpoint validate_loop (coauthors_with_years : list (string * year_set))
    (coauthors_with_affiliations : dict (string * pyval)) : M (dict (string * pyval)) :=
  match coauthors_with_years with
  | [] => ret coauthors_with_affiliations
  | (coauthor, pub_years) :: rest =>
      let* updated :=
        try_except
          (let* found := lookup coauthor pub_years in
           let assigned := PyDict.set coauthor found coauthors_with_affiliations in
           emit (Sleep 1) >>
           ret assigned)
          (fun e =>
             print (MsgError coauthor e) >>
             ret (PyDict.set coauthor placeholder coauthors_with_affiliations)) in
      validate_loop rest updated
  end.

Definition _get_validated_affiliations (coauthors_with_years : dict year_set)
  : M (dict (string * pyval)) :=
  print (MsgValidating (length coauthors_with_years)) >>
  validate_loop coauthors_with_years [].

(** The row [["A:", name, affiliation, "", pub_date]]. *)
Definition coa_row (name affiliation : string) (pub_date : pyval) : list pyval :=
  [VStr "A:"; VStr name; VStr affiliation; VStr EmptyString; pub_date].

(** [open(filename, "w")]: it raises where the file cannot be opened;
    otherwise the file exists afterwards and is empty. *)
Definition open_w (filename : string) : M unit :=
  match open_error filename with
  | Some e => raise e
  | None =>
      fun w => (Ok tt, {| log := log w; files := <[filename := []]> (files w) |})
  end.

(** [writer.writerow(row)] for a writer created with [delimiter=d] on the
    open file: one more line at the end of the file. *)
Definition writerow (filename : string) (d : ascii) (row : list pyval) : M unit :=
  fun w =>
    (Ok tt,
     {| log := log w;
        files := <[filename :=
                     (default [] (files w !! filename)
                        ++ [{| delimiter := d; fields := row |}])%list]> (files w) |}).

Definition tab : ascii := ascii_of_nat 9.

(** The loop [for name, (affiliation, pub_date) in ....items()]. *)
Fixpoint write_rows (filename : string) (items : list (string * (string * pyval)))
  : M unit :=
  match items with
  | [] => ret tt
  | (name, (affiliation, pub_date)) :: rest =>
      writerow filename tab (coa_row name affiliation pub_date) >>
      write_rows filename rest
  end.

Definition save_coa_tsv (coauthors_with_affiliations : dict (string * pyval))
    (filename : string) : M unit :=
  open_w filename >>
  write_rows filename coauthors_with_affiliations >>
  print (MsgSaved filename).

(** The command line, after [argparse]. *)
Record arguments := {
  scholar_id : string;
  years_back : Z;
  output : string
}.

(** The [__main__] block; [now_year] is [datetime.datetime.now().year], read
    here and again in [_get_unique_coauthors], both readings taken to fall in
    the same year. *)
Definition main (now_year : Z) (args : arguments) : M unit :=
  print (MsgRetrieving (scholar_id args)) >>
  let* profile := get_scholar_profile (scholar_id args) in
  match profile with
  | Some profile =>
      if truthy profile
      then
        let my_name := name profile in
        print (MsgProfileFound my_name) >>
        let year_cutoff := now_year - years_back args in
        print (MsgExtracting year_cutoff) >>
        let* papers := lift (item "publications" (publications profile)) in
        let* unique_coauthors_with_years :=
          _get_unique_coauthors now_year papers year_cutoff my_name in
        print MsgValidatingAffiliations >>
        let* coauthors_with_affiliations :=
          _get_validated_affiliations unique_coauthors_with_years in
        save_coa_tsv coauthors_with_affiliations (output args)
      else print MsgNoProfile
  | None => print MsgNoProfile
  end.

End Pipeline.

(** ** Definitions used to state the properties *)

(** The line the export writes for one entry of the mapping. *)
Definition coa_line (entry : string * (string * pyval)) : csv_row :=
  {| delimiter := tab;
     fields := coa_row (fst entry) (fst (snd entry)) (snd (snd entry)) |}.

(** [p.get("bib", {}).get("pub_year")]: the year a publication lists, if any. *)
Definition stated_year (p : paper) : option pyval :=
  match bib p with
  | Some b => pub_year b
  | None => None
  end.

(** Every year that is listed is an integer literal. *)
Definition years_parse (int_of_str : string -> option Z) (papers : list paper) : Prop :=
  forall p v, p ∈ papers -> stated_year p = Some v ->
              exists y, py_int int_of_str v = Ok y.

(** The retention rule in the words of the specification: a publication is
    kept when its year is at least the cutoff, or when it lists no year. *)
Definition kept_by_cutoff (int_of_str : string -> option Z) (year_cutoff : Z)
    (p : paper) : bool :=
  match stated_year p with
  | None => true
  | Some v =>
      match py_int int_of_str v with
      | Ok y => year_cutoff <=? y
      | Raise _ => false
      end
  end.

(** The rule the filter implements: a publication without a year counts as
    one of the current year. *)
Definition kept_by_filter (int_of_str : string -> option Z)
    (current_year year_cutoff : Z) (p : paper) : bool :=
  match stated_year p with
  | None => year_cutoff <=? current_year
  | Some v =>
      match py_int int_of_str v with
      | Ok y => year_cutoff <=? y
      | Raise _ => false
      end
  end.

(** A computation that, from every world, returns [r] and adds [evs] to the
    log, leaving the files alone. *)
Definition logs {A} (m : M A) (r : result A) (evs : list event) : Prop :=
  forall w, m w = (r, {| log := (log w ++ evs)%list; files := files w |}).

(** What a computation returns from a given world. *)
Definition outcome {A} (m : M A) (w : world) : result A := fst (m w).

(** A search candidate has, once filled, a publication of one of the years. *)
Definition has_matching_year (scholarly : source) (pub_years : year_set)
    (candidate : author_record) : Prop :=
  exists filled pub,
    fill scholarly candidate = Ok filled
    /\ pub ∈ default [] (publications filled)
    /\ candidate_pub_year pub ∈ pub_years.

(** The year stored with a co-author: the greatest of the set, or "Unknown"
    for an empty set. *)
Definition latest_of (pub_years : year_set) (latest : pyval) : Prop :=
  if decide (pub_years = ∅) then latest = VStr "Unknown"
  else py_max pub_years = Ok latest.

(** What the batch stores for one co-author: the value its lookup returns,
    or the placeholder when the lookup raises. *)
Definition recorded (scholarly : source) (entry : string * year_set)
  : string * (string * pyval) :=
  (fst entry,
   match outcome (lookup scholarly (fst entry) (snd entry)) {| log := []; files := ∅ |} with
   | Ok found => found
   | Raise _ => placeholder
   end).

(** The [bib] dictionaries the extraction loop reads, one per paper, when
    every [fill] succeeds and every filled paper has a [bib]. *)
Fixpoint filled_bibs (scholarly : source) (papers : list paper)
  : result (list bib_entry) :=
  match papers with
  | [] => Ok []
  | p :: rest =>
      match fill_bib scholarly p with
      | Raise e => Raise e
      | Ok paper_full =>
          match item "bib" (bib paper_full) with
          | Raise e => Raise e
          | Ok b =>
              match filled_bibs scholarly rest with
              | Raise e => Raise e
              | Ok bs => Ok (b :: bs)
              end
          end
      end
  end.

(** The names in the author field of a filled paper. *)
Definition coauthors_of (b : bib_entry) : list string :=
  match author b with
  | Some authors => PyStr.split " and " authors
  | None => []
  end.

(** The union of the years of all publications in which a name appears. *)
Fixpoint years_with (raw : string) (bibs : list bib_entry) : year_set :=
  match bibs with
  | [] => ∅
  | b :: rest =>
      (if decide (raw ∈ coauthors_of b) then {[paper_year_of b]} else ∅)
        ∪ years_with raw rest
  end.

(** Adding a set of years to what a dictionary holds under a key; nothing is
    stored for an empty addition. *)
Definition add_years (held : option year_set) (more : year_set) : option year_set :=
  if decide (more = ∅) then held else Some (default ∅ held ∪ more).

(** The dictionary after the extraction loop has gone through [bibs]. *)
Definition record_papers (my_name : option string) (bibs : list bib_entry)
    (unique_coauthors : dict year_set) : dict year_set :=
  List.fold_left (fun u b => record_paper my_name b u) bibs unique_coauthors.

(** An entry of the extraction mapping under its cleaned-up name. *)
Definition renamed (entry : string * year_set) : string * year_set :=
  (reordered_name (fst entry), snd entry).

(** What the extraction stage of [main] returns for a profile: the mapping
    of cleaned-up names to year-sets, or the exception of the first step
    that raises. *)
Definition extracted (int_of_str : string -> option Z) (scholarly : source)
    (now_year year_cutoff : Z) (profile : author_record) : result (dict year_set) :=
  match item "publications" (publications profile) with
  | Raise e => Raise e
  | Ok papers =>
      match filtered_papers int_of_str now_year year_cutoff papers with
      | Raise e => Raise e
      | Ok filtered =>
          match filled_bibs scholarly filtered with
          | Raise e => Raise e
          | Ok bibs => Ok (List.map renamed (record_papers (name profile) bibs []))
          end
      end
  end.


(** What one lookup adds to the log, and what one pass of the batch loop
    adds: the lookup's events, then the pause after a lookup that returned or
    the error message after one that raised. *)
Definition lookup_events (scholarly : source) (coauthor : string)
    (pub_years : year_set) : list event :=
  log (snd (lookup scholarly coauthor pub_years {| log := []; files := ∅ |})).

Definition entry_events (scholarly : source) (entry : string * year_set)
  : list event :=
  (lookup_events scholarly (fst entry) (snd entry)
   ++ match outcome (lookup scholarly (fst entry) (snd entry))
              {| log := []; files := ∅ |} with
      | Ok _ => [Sleep 1]
      | Raise e => [Print (MsgError (fst entry) e)]
      end)%list.

(** The names searched for in a log, in order, and the number of pauses. *)
Definition searched (evs : list event) : list string :=
  List.flat_map
    (fun ev => match ev with CallSearchAuthor c => [c] | _ => [] end) evs.

Definition sleeps (evs : list event) : nat :=
  length (List.filter (fun ev => match ev with Sleep _ => true | _ => false end) evs).

Definition returns_normally (scholarly : source) (entry : string * year_set) : bool :=
  match outcome (lookup scholarly (fst entry) (snd entry))
          {| log := []; files := ∅ |} with
  | Ok _ => true
  | Raise _ => false
  end.

(** The names of a list in the order of their first occurrence. *)
Fixpoint first_occurrences (names : list string) : list string :=
  match names with
  | [] => []
  | n :: rest =>
      n :: List.filter (fun m => bool_decide (m <> n)) (first_occurrences rest)
  end.

(** Every author entry of the filled publications, in reading order, the
    entries equal to the subject's name left out. *)
Definition listed_coauthors (my_name : option string) (bibs : list bib_entry)
  : list string :=
  List.filter (fun c => bool_decide (Some c <> my_name))
    (concat (List.map coauthors_of bibs)).

(** Appending to a list of keys each name that is not in it yet. *)
Definition add_keys (ks names : list string) : list string :=
  List.fold_left (fun ks c => if decide (c ∈ ks) then ks else (ks ++ [c])%list)
    names ks.

(** [s[k:]] *)
Fixpoint drop_chars (k : nat) (s : string) : string :=
  match k, s with
  | O, _ => s
  | S k', String _ s' => drop_chars k' s'
  | S _, EmptyString => EmptyString
  end.

(** The specification's reading of the name clean-up, to compare the code
    with.  There the tokens of a name are its whitespace-separated words:
    the maximal runs of characters other than white space (space, tab, line
    feed, vertical tab, form feed, carriage return), as [str.split()] gives
    them.  [word] holds the characters of the word being read. *)
Definition is_whitespace (c : ascii) : bool :=
  let n := nat_of_ascii c in
  ((n =? 32) || ((9 <=? n) && (n <=? 13)))%nat.

Fixpoint words_from (word : string) (s : string) : list string :=
  match s with
  | EmptyString => match word with EmptyString => [] | _ => [word] end
  | String c s' =>
      if is_whitespace c
      then match word with
           | EmptyString => words_from EmptyString s'
           | _ => word :: words_from EmptyString s'
           end
      else words_from (word ++ String c EmptyString) s'
  end.

Definition whitespace_tokens (name : string) : list string :=
  words_from EmptyString name.

(** "Last, First Middle" for a name of several tokens, the name itself for
    a name of one token. *)
Definition described_name (name : string) : string :=
  let tokens := whitespace_tokens name in
  if (1 <? length tokens)%nat
  then PyStr.last_part tokens ++ ", " ++ PyStr.join " " (PyStr.but_last tokens)
  else name.

(** ** Concrete inputs for the examples *)

(** The plain decimal literals among the strings [int] accepts. *)
Definition digit_value (c : ascii) : option Z :=
  let n := Z.of_nat (nat_of_ascii c) in
  if (48 <=? n) && (n <=? 57) then Some (n - 48) else None.

Fixpoint digits_value (acc : Z) (s : string) : option Z :=
  match s with
  | EmptyString => Some acc
  | String c s' =>
      match digit_value c with
      | Some d => digits_value (10 * acc + d) s'
      | None => None
      end
  end.

Definition decimal (s : string) : option Z :=
  match s with
  | EmptyString => None
  | _ => digits_value 0 s
  end.

(** Two values of the same Python type, [str] or [int]. *)
Definition same_type (a b : pyval) : bool :=
  match a, b with
  | VStr _, VStr _ | VInt _, VInt _ => true
  | _, _ => false
  end.

(** A string of decimal digits, and the values a year-set holds when every
    year is either such a string or the literal "Unknown". *)
Fixpoint all_digits (s : string) : Prop :=
  match s with
  | EmptyString => True
  | String c s' => is_Some (digit_value c) /\ all_digits s'
  end.


(** What the candidate loop accepts: a filled candidate with a publication
    of one of the years and an affiliation other than the initial value of
    [validated_affiliation]. *)
Definition accepted (pub_years : year_set) (filled : author_record) : Prop :=
  (exists pub, pub ∈ default [] (publications filled)
               /\ candidate_pub_year pub ∈ pub_years)
  /\ default "Unknown Institution" (affiliation filled) <> "Unknown Institution".

(** Two candidates with a publication of 2023 each; the first one carries no
    affiliation. *)
Definition candidate_without_affiliation : author_record :=
  {| name := Some "C D";
     affiliation := None;
     publications := Some [{| bib := Some {| title := None;
                                             pub_year := Some (VStr "2023");
                                             author := None |} |}];
     other_keys := true |}.

Definition candidate_with_affiliation : author_record :=
  {| name := Some "C D";
     affiliation := Some "Example University";
     publications := Some [{| bib := Some {| title := None;
                                             pub_year := Some (VStr "2023");
                                             author := None |} |}];
     other_keys := true |}.

Definition two_candidate_source : source :=
  {| search_author_id := fun _ => Ok None;
     search_author :=
       fun _ => {| yielded := [candidate_without_affiliation; candidate_with_affiliation];
                   failure := None |};
     fill := fun a => Ok a;
     fill_bib := fun p => Ok p |}.

Definition mk_paper (year : option pyval) (authors : option string) : paper :=
  {| bib := Some {| title := None; pub_year := year; author := authors |} |}.

(** A source that knows nobody and fills every record with what it already
    holds. *)
Definition quiet_source : source :=
  {| search_author_id := fun _ => Ok None;
     search_author := fun _ => {| yielded := []; failure := None |};
     fill := fun a => Ok a;
     fill_bib := fun p => Ok p |}.

Definition fresh_world : world := {| log := []; files := ∅ |}.

(** A machine on which every file can be opened for writing, and one on
    which none can. *)
Definition always_writable : string -> option exn := fun _ => None.

Definition never_writable : string -> option exn :=
  fun filename => Some (OSError filename).

(** A dictionary that holds only keys the script does not read, and the
    empty dictionary. *)
Definition bare_record : author_record :=
  {| name := None; affiliation := None; publications := None; other_keys := true |}.

Definition empty_record : author_record :=
  {| name := None; affiliation := None; publications := None; other_keys := false |}.

(** A source that finds one profile under every identifier. *)
Definition source_with_profile (profile : author_record) : source :=
  {| search_author_id := fun _ => Ok (Some profile);
     search_author := fun _ => {| yielded := []; failure := None |};
     fill := fun a => Ok a;
     fill_bib := fun p => Ok p |}.

(** A profile whose name is written surname first. *)
Definition surname_first_profile : author_record :=
  {| name := Some "Public, Jane";
     affiliation := None;
     publications := Some [mk_paper (Some (VStr "2023")) (Some "Jane Public and Bob Smith")];
     other_keys := true |}.

(** A profile with one dated publication and one whose year is no number. *)
Definition undated_profile : author_record :=
  {| name := Some "A B";
     affiliation := None;
     publications := Some [mk_paper (Some (VStr "2023")) (Some "A B and C D");
                           mk_paper (Some (VStr "n.d.")) (Some "A B and E F")];
     other_keys := true |}.

(** The profile of the end-to-end example: two publications, the co-author
    "C D" on the first one only. *)
Definition two_paper_profile : author_record :=
  {| name := Some "A B";
     affiliation := None;
     publications := Some [mk_paper (Some (VStr "2023")) (Some "A B and C D");
                           mk_paper (Some (VStr "2020")) (Some "A B")];
     other_keys := true |}.

(** A source that finds the given profile but fails to fill publications. *)
Definition bib_failing_source (profile : author_record) : source :=
  {| search_author_id := fun _ => Ok (Some profile);
     search_author := fun _ => {| yielded := []; failure := None |};
     fill := fun a => Ok a;
     fill_bib := fun _ => Raise (SourceError "fill failed") |}.

Definition default_arguments : arguments :=
  {| scholar_id := "3HU8c9EAAAAJ"; years_back := 4; output := "NSF_COA.tsv" |}.

(** A source whose name search fails before it yields anything. *)
Definition failing_source : source :=
  {| search_author_id := fun _ => Ok None;
     search_author :=
       fun _ => {| yielded := []; failure := Some (SourceError "search failed") |};
     fill := fun a => Ok a;
     fill_bib := fun p => Ok p |}.

(** * Properties *)

(** ** Splitting and cleaning up on examples *)

Example split_and :
  PyStr.split " and " "A B and C D and Sandy Anderson" = ["A B"; "C D"; "Sandy Anderson"].
Proof. reflexivity. Qed.

Example split_trailing : PyStr.split " and " "A B and " = ["A B"; EmptyString].
Proof. reflexivity. Qed.

Example split_spaces : PyStr.split " " "a  b" = ["a"; EmptyString; "b"].
Proof. reflexivity. Qed.

Example cleanup_jane : _nsf_name_cleanup ["Jane Q Public"; "Madonna"] = ["Public, Jane Q"; "Madonna"].
Proof. reflexivity. Qed.

(** ** Splitting on a single space and joining again *)

Section SpaceSeparated.

Let space : ascii := " "%char.

Lemma split_space_nil : PyStr.split " " EmptyString = [EmptyString].
Proof. reflexivity. Qed.

Lemma split_space_cons (c : ascii) (s : string) :
  PyStr.split " " (String c s) =
    if decide (c = space)
    then EmptyString :: PyStr.split " " s
    else match PyStr.split " " s with
         | part :: parts => String c part :: parts
         | [] => [String c EmptyString]
         end.
Proof.
  unfold PyStr.split. cbn [PyStr.split_from String.prefix String.length Nat.sub].
  destruct (ascii_dec " " c) as [<-|Hne].
  - rewrite decide_True by reflexivity. by destruct s.
  - rewrite decide_False by (intros ->; by apply Hne). reflexivity.
Qed.

Lemma split_space_nonempty (s : string) : PyStr.split " " s <> [].
Proof.
  destruct s as [|c s]; [done|].
  rewrite split_space_cons. case_decide; [done|].
  by destruct (PyStr.split " " s).
Qed.

Lemma split_space_lacks (s : string) :
  Forall (PyStr.lacks space) (PyStr.split " " s).
Proof.
  induction s as [|c s IH].
  - by repeat constructor.
  - rewrite split_space_cons. case_decide.
    + by constructor.
    + destruct (PyStr.split " " s) as [|part parts].
      * by repeat constructor.
      * inversion IH; subst. by repeat constructor.
Qed.

Lemma join_split_space (s : string) : PyStr.join " " (PyStr.split " " s) = s.
Proof.
  induction s as [|c s IH]; [done|].
  rewrite split_space_cons. case_decide as Hc.
  - subst c. pose proof (split_space_nonempty s) as Hne.
    unfold PyStr.join in *.
    destruct (PyStr.split " " s); [done|]. by rewrite <- IH.
  - pose proof (split_space_nonempty s) as Hne.
    unfold PyStr.join in *.
    destruct (PyStr.split " " s) as [|part parts]; [done|].
    rewrite <- IH. by destruct parts.
Qed.

Lemma split_space_of_lacks (s : string) :
  PyStr.lacks space s -> PyStr.split " " s = [s].
Proof.
  induction s as [|c s IH]; [done|].
  intros [Hc Hs]. rewrite split_space_cons, decide_False by done.
  by rewrite IH.
Qed.

Lemma split_space_app (t s : string) :
  PyStr.lacks space t ->
  PyStr.split " " (t ++ String space s) = t :: PyStr.split " " s.
Proof.
  induction t as [|c t IH]; intros Ht.
  - change (EmptyString ++ String space s) with (String space s).
    by rewrite split_space_cons, decide_True.
  - destruct Ht as [Hc Ht].
    change (String c t ++ String space s) with (String c (t ++ String space s)).
    rewrite split_space_cons, decide_False by done.
    by rewrite IH.
Qed.

Lemma split_join_space (tokens : list string) :
  tokens <> [] -> Forall (PyStr.lacks space) tokens ->
  PyStr.split " " (PyStr.join " " tokens) = tokens.
Proof.
  induction tokens as [|t tokens IH]; [done|].
  intros _ Hall. inversion Hall as [|? ? Ht Hts]; subst.
  destruct tokens as [|t' tokens].
  - by apply split_space_of_lacks.
  - unfold PyStr.join in *.
    change (String.concat " " (t :: t' :: tokens))
      with (t ++ String space (String.concat " " (t' :: tokens))).
    rewrite split_space_app by done. by rewrite IH.
Qed.

Lemma str_app_assoc (a b c : string) : (a ++ b) ++ c = a ++ b ++ c.
Proof.
  induction a as [|x a IH]; [done|].
  change (String x ((a ++ b) ++ c) = String x (a ++ b ++ c)). by rewrite IH.
Qed.

Lemma join_snoc (parts : list string) (t : string) :
  parts <> [] ->
  PyStr.join " " (parts ++ [t])%list = PyStr.join " " parts ++ " " ++ t.
Proof.
  induction parts as [|p parts IH]; [done|]. intros _.
  destruct parts as [|p' parts].
  - reflexivity.
  - unfold PyStr.join in *.
    change (String.concat " " ((p :: p' :: parts) ++ [t]))
      with (p ++ " " ++ String.concat " " ((p' :: parts) ++ [t])).
    rewrite IH by done.
    change (String.concat " " (p :: p' :: parts))
      with (p ++ " " ++ String.concat " " (p' :: parts)).
    by rewrite !str_app_assoc.
Qed.

Lemma lacks_app (c : ascii) (a b : string) :
  PyStr.lacks c (a ++ b) <-> PyStr.lacks c a /\ PyStr.lacks c b.
Proof.
  induction a as [|x a IH].
  - change (EmptyString ++ b) with b. simpl. tauto.
  - change (String x a ++ b) with (String x (a ++ b)). simpl. tauto.
Qed.

(** A string is cut in one way only at its first space. *)
Lemma first_space_unique (u v x y : string) :
  PyStr.lacks space u -> PyStr.lacks space v ->
  u ++ String space x = v ++ String space y -> u = v /\ x = y.
Proof.
  revert v. induction u as [|a u IH]; intros [|b v] Hu Hv Heq.
  - change (String space x = String space y) in Heq. by injection Heq.
  - change (String space x = String b (v ++ String space y)) in Heq.
    injection Heq as <- _. by destruct Hv.
  - change (String a (u ++ String space x) = String space y) in Heq.
    injection Heq as -> _. by destruct Hu.
  - change (String a (u ++ String space x) = String b (v ++ String space y)) in Heq.
    injection Heq as -> Heq. destruct Hu as [_ Hu], Hv as [_ Hv].
    destruct (IH v Hu Hv Heq) as [-> ->]. done.
Qed.

Lemma snoc_char_inj (a b : string) (c : ascii) :
  a ++ String c EmptyString = b ++ String c EmptyString -> a = b.
Proof.
  revert b. induction a as [|x a IH]; intros [|y b] Heq.
  - done.
  - change (String c EmptyString = String y (b ++ String c EmptyString)) in Heq.
    injection Heq as _ Heq. by destruct b.
  - change (String x (a ++ String c EmptyString) = String c EmptyString) in Heq.
    injection Heq as _ Heq. by destruct a.
  - change (String x (a ++ String c EmptyString) = String y (b ++ String c EmptyString)) in Heq.
    injection Heq as -> Heq. by rewrite (IH b Heq).
Qed.

(** The two shapes of a name and what the clean-up makes of each. *)
Lemma reordered_name_cases (s : string) :
  (PyStr.lacks space s /\ reordered_name s = s) \/
  (exists p t, s = p ++ " " ++ t /\ PyStr.lacks space t /\
               reordered_name s = t ++ ", " ++ p).
Proof.
  pose proof (split_space_nonempty s) as Hne.
  pose proof (split_space_lacks s) as Hall.
  pose proof (join_split_space s) as Hjoin.
  unfold reordered_name. cbv zeta.
  destruct (PyStr.split " " s) as [|t0 parts] eqn:Hsplit; [done|].
  destruct parts as [|t1 parts].
  - left. simpl in Hjoin. subst t0. inversion Hall; subst. by split.
  - right. set (l := t0 :: t1 :: parts) in *.
    assert (Hl : l = (PyStr.but_last l ++ [PyStr.last_part l])%list)
      by (apply app_removelast_last; done).
    assert (Hbl : PyStr.but_last l <> []) by (subst l; simpl; by destruct parts).
    exists (PyStr.join " " (PyStr.but_last l)), (PyStr.last_part l).
    split; [|split].
    + rewrite <- Hjoin. rewrite Hl at 1. by apply join_snoc.
    + rewrite Hl in Hall. apply Forall_app in Hall as [_ Hlast].
      by inversion Hlast.
    + reflexivity.
Qed.

Lemma reordered_name_inj (s1 s2 : string) :
  reordered_name s1 = reordered_name s2 -> s1 = s2.
Proof.
  assert (Hshape : forall t p : string,
             t ++ ", " ++ p = (t ++ ",") ++ String space p)
    by (intros; by rewrite str_app_assoc).
  destruct (reordered_name_cases s1) as [[H1 ->]|(p1 & t1 & -> & Ht1 & ->)];
    destruct (reordered_name_cases s2) as [[H2 ->]|(p2 & t2 & -> & Ht2 & ->)].
  - done.
  - intros ->. apply lacks_app in H1 as [_ H1]. apply lacks_app in H1 as [[_ H1] _].
    by destruct H1.
  - intros <-. apply lacks_app in H2 as [_ H2]. apply lacks_app in H2 as [[_ H2] _].
    by destruct H2.
  - rewrite !Hshape. intros Heq.
    apply first_space_unique in Heq as [Ht ->].
    + by rewrite (snoc_char_inj _ _ _ Ht).
    + apply lacks_app. split; [done|]. by repeat split.
    + apply lacks_app. split; [done|]. by repeat split.
Qed.

End SpaceSeparated.

(** ** Dictionaries *)

Section DictFacts.

Context {V : Type}.
Implicit Types (d : dict V) (k : string) (v : V).

Lemma get_set_eq d k v : PyDict.get k (PyDict.set k v d) = Some v.
Proof.
  induction d as [|[k' v'] d IH]; simpl.
  - by rewrite decide_True.
  - destruct (decide (k' = k)); simpl.
    + by rewrite decide_True.
    + by rewrite decide_False.
Qed.

Lemma get_set_ne d k k' v :
  k <> k' -> PyDict.get k' (PyDict.set k v d) = PyDict.get k' d.
Proof.
  intros Hne. induction d as [|[k0 v0] d IH]; simpl.
  - by rewrite decide_False.
  - destruct (decide (k0 = k)) as [->|]; simpl.
    + by rewrite !decide_False.
    + by rewrite IH.
Qed.

Lemma keys_set_fresh d k v :
  k ∉ PyDict.keys d -> PyDict.set k v d = (d ++ [(k, v)])%list.
Proof.
  induction d as [|[k' v'] d IH]; simpl; [done|].
  intros Hk. apply not_elem_of_cons in Hk as [Hne Hk].
  rewrite decide_False by done. by rewrite IH.
Qed.

Lemma keys_set_present d k v :
  k ∈ PyDict.keys d -> PyDict.keys (PyDict.set k v d) = PyDict.keys d.
Proof.
  induction d as [|[k' v'] d IH]; simpl.
  - by intros ?%elem_of_nil.
  - intros Hk. destruct (decide (k' = k)) as [->|Hne]; simpl; [done|].
    apply elem_of_cons in Hk as [->|Hk]; [done|]. by rewrite IH.
Qed.

Lemma wf_set d k v : PyDict.wf d -> PyDict.wf (PyDict.set k v d).
Proof.
  unfold PyDict.wf. intros Hwf.
  destruct (decide (k ∈ PyDict.keys d)) as [Hin|Hout].
  - by rewrite keys_set_present.
  - rewrite keys_set_fresh by done. unfold PyDict.keys in *.
    rewrite map_app. apply NoDup_app. split; [done|]. split.
    + intros x Hx ->%list_elem_of_singleton. done.
    + apply NoDup_singleton.
Qed.

Lemma get_None_keys d k : PyDict.get k d = None <-> k ∉ PyDict.keys d.
Proof.
  induction d as [|[k' v'] d IH]; simpl.
  - split; [intros _; apply not_elem_of_nil | done].
  - destruct (decide (k' = k)) as [->|Hne].
    + split; [done|]. intros Hk. exfalso. apply Hk. by left.
    + rewrite IH, not_elem_of_cons. intuition congruence.
Qed.

Lemma get_Some_elem d k v : PyDict.get k d = Some v -> (k, v) ∈ d.
Proof.
  induction d as [|[k' v'] d IH]; simpl; [done|].
  destruct (decide (k' = k)) as [->|Hne].
  - intros [= ->]. by left.
  - intros H. right. by apply IH.
Qed.

Lemma elem_get_Some d k v : PyDict.wf d -> (k, v) ∈ d -> PyDict.get k d = Some v.
Proof.
  unfold PyDict.wf. induction d as [|[k' v'] d IH]; simpl.
  - by intros _ ?%elem_of_nil.
  - intros [Hk' Hwf]%NoDup_cons Hin.
    apply elem_of_cons in Hin as [[= <- <-]|Hin].
    + by rewrite decide_True.
    + rewrite decide_False; [by apply IH|].
      intros ->. apply Hk'. unfold PyDict.keys.
      by apply (list_elem_of_fmap_2 fst) in Hin.
Qed.

End DictFacts.

(** ** Name clean-up *)

(** C5, as the code has it.  The code cuts a name at every single space
    character.  A name made of two or more space-free tokens joined by single
    spaces, "First Middle Last", is cleaned up to "Last, First Middle": the
    last token, a comma and a space, then the other tokens in their order.  A
    name without a space is returned as it is.  In particular
    "Jane Q Public" becomes "Public, Jane Q" and "Madonna" stays "Madonna". *)
Theorem nsf_name_cleanup_reorders
    (first_middle : list string) (last_token single : string) :
  first_middle <> [] ->
  Forall (PyStr.lacks " ") (first_middle ++ [last_token])%list ->
  PyStr.lacks " " single ->
  _nsf_name_cleanup [PyStr.join " " (first_middle ++ [last_token])%list]
    = [last_token ++ ", " ++ PyStr.join " " first_middle]
  /\ _nsf_name_cleanup [single] = [single]
  /\ _nsf_name_cleanup ["Jane Q Public"] = ["Public, Jane Q"]
  /\ _nsf_name_cleanup ["Madonna"] = ["Madonna"].
Proof.
  intros Hfm Hall Hsingle. split; [|split; [|split; reflexivity]].
  - unfold _nsf_name_cleanup, reordered_name. cbn [List.map]. cbv zeta.
    rewrite split_join_space by (done || by destruct first_middle).
    assert (Hlen : (1 <? length (first_middle ++ [last_token])%list)%nat = true).
    { apply Nat.ltb_lt. rewrite length_app. simpl.
      destruct first_middle; [done|simpl; lia]. }
    rewrite Hlen. unfold PyStr.last_part, PyStr.but_last.
    by rewrite last_last, removelast_last.
  - unfold _nsf_name_cleanup, reordered_name. cbn [List.map]. cbv zeta.
    by rewrite split_space_of_lacks.
Qed.

Lemma nsf_name_cleanup_reorders_witness :
  _nsf_name_cleanup [PyStr.join " " (["Ada"; "King"] ++ ["Lovelace"])%list]
    = ["Lovelace" ++ ", " ++ PyStr.join " " ["Ada"; "King"]]
  /\ _nsf_name_cleanup ["Cher"] = ["Cher"]
  /\ _nsf_name_cleanup ["Jane Q Public"] = ["Public, Jane Q"]
  /\ _nsf_name_cleanup ["Madonna"] = ["Madonna"].
Proof.
  apply (nsf_name_cleanup_reorders ["Ada"; "King"] "Lovelace" "Cher").
  - discriminate.
  - repeat constructor; discriminate.
  - repeat constructor; discriminate.
Defined.

(** For names padded with spaces the code and the specification part ways.
    " Madonna" has the single whitespace-separated token "Madonna", yet it is
    not returned as it is: the code sees an empty part before the space and
    returns "Madonna, ".  "Jane Public " has the tokens "Jane" and "Public",
    yet the result does not start with the last token "Public": the code
    takes the empty part after the final space as the surname and returns
    ", Jane Public".  With two spaces between the tokens the second space
    stays in the result. *)
Lemma cleanup_of_padded_names :
  (whitespace_tokens " Madonna" = ["Madonna"]
   /\ described_name " Madonna" = " Madonna"
   /\ _nsf_name_cleanup [" Madonna"] = ["Madonna, "])
  /\ (whitespace_tokens "Jane Public " = ["Jane"; "Public"]
      /\ described_name "Jane Public " = "Public, Jane"
      /\ _nsf_name_cleanup ["Jane Public "] = [", Jane Public"])
  /\ (whitespace_tokens "Jane  Public" = ["Jane"; "Public"]
      /\ described_name "Jane  Public" = "Public, Jane"
      /\ _nsf_name_cleanup ["Jane  Public"] = ["Public, Jane "])
  /\ ~ (forall name, _nsf_name_cleanup [name] = [described_name name]).
Proof.
  repeat split; try reflexivity.
  intros Hall. specialize (Hall " Madonna"). discriminate Hall.
Qed.

(** ** TSV export *)

Lemma write_rows_appends (filename : string)
    (items : list (string * (string * pyval))) (w : world) (written : list csv_row) :
  files w !! filename = Some written ->
  write_rows filename items w =
    (Ok tt, {| log := log w;
               files := <[filename := (written ++ List.map coa_line items)%list]> (files w) |}).
Proof.
  revert w written. induction items as [|[name [aff date]] items IH]; intros w written Hw.
  - simpl. unfold ret. rewrite app_nil_r, insert_id by done. by destruct w.
  - cbn [write_rows]. unfold bind, writerow. rewrite Hw. cbn [from_option id].
    erewrite IH by (cbn [files]; apply lookup_insert_eq).
    cbn [log files]. rewrite insert_insert_eq.
    by rewrite <- app_assoc.
Qed.

Lemma save_coa_tsv_rows_at (open_error : string -> option exn)
    (coauthors_with_affiliations : dict (string * pyval))
    (filename : string) (w : world) :
  open_error filename = None ->
  exists w',
    save_coa_tsv open_error coauthors_with_affiliations filename w = (Ok tt, w')
    /\ files w' !! filename = Some (List.map coa_line coauthors_with_affiliations).
Proof.
  intros Hopen. unfold save_coa_tsv, bind, open_w. rewrite Hopen.
  erewrite write_rows_appends by (cbn [files]; apply lookup_insert_eq).
  unfold print, emit. cbn [log files]. eexists. split; [reflexivity|].
  cbn [log files]. rewrite insert_insert_eq. apply lookup_insert_eq.
Qed.

Lemma save_coa_tsv_unwritable (open_error : string -> option exn)
    (coauthors_with_affiliations : dict (string * pyval))
    (filename : string) (w : world) (e : exn) :
  open_error filename = Some e ->
  save_coa_tsv open_error coauthors_with_affiliations filename w = (Raise e, w).
Proof. intros Hopen. unfold save_coa_tsv, bind, open_w, raise. by rewrite Hopen. Qed.



(** ** The year filter *)

Lemma listed_year_stated (current_year : Z) (p : paper) :
  listed_year current_year p = default (VInt current_year) (stated_year p).
Proof. unfold listed_year, stated_year. by destruct (bib p). Qed.

(** The filter raises on no list whose listed years all parse, and keeps a
    publication exactly when its year, or the current year in place of a
    missing one, reaches the cutoff. *)
Lemma filtered_papers_filter (int_of_str : string -> option Z)
    (current_year year_cutoff : Z) (papers : list paper) :
  years_parse int_of_str papers ->
  filtered_papers int_of_str current_year year_cutoff papers =
    Ok (List.filter (kept_by_filter int_of_str current_year year_cutoff) papers).
Proof.
  induction papers as [|p papers IH]; intros Hparse; [done|].
  cbn [filtered_papers List.filter].
  rewrite IH by (intros q v Hq; apply Hparse; by right).
  rewrite listed_year_stated. unfold kept_by_filter.
  destruct (stated_year p) as [v|] eqn:Hyear; cbn [from_option id].
  - destruct (Hparse p v) as [y Hy]; [by left|done|]. by rewrite Hy.
  - reflexivity.
Qed.

(** A listed year that is no integer literal makes the filter raise. *)
Lemma filtered_papers_raises (int_of_str : string -> option Z)
    (current_year year_cutoff : Z) (papers : list paper) (p : paper) (v : pyval) (e : exn) :
  p ∈ papers -> stated_year p = Some v -> py_int int_of_str v = Raise e ->
  exists bad, filtered_papers int_of_str current_year year_cutoff papers
              = Raise (ValueError bad).
Proof.
  intros Hin Hyear Hbad. induction papers as [|q papers IH].
  - by apply elem_of_nil in Hin.
  - cbn [filtered_papers]. rewrite listed_year_stated.
    destruct (py_int int_of_str (default (VInt current_year) (stated_year q)))
      as [y|e'] eqn:Hq.
    + apply elem_of_cons in Hin as [->|Hin].
      { rewrite Hyear in Hq. cbn [from_option id] in Hq. congruence. }
      destruct (IH Hin) as [bad ->]. by exists bad.
    + destruct (stated_year q) as [u|]; cbn [from_option id] in Hq; [|done].
      destruct u as [s|z]; cbn [py_int] in Hq; [|done].
      destruct (int_of_str s); [done|]. injection Hq as <-. by eexists.
Qed.

(** C3, as the code has it.  When every listed year is an integer literal and
    the cutoff is not later than the current year, the filter keeps, in their
    order, exactly the publications whose year is at least the cutoff together
    with those that list no year; a publication of the cutoff year itself is
    kept. *)
Theorem filtered_papers_exact (int_of_str : string -> option Z)
    (current_year year_cutoff : Z) (papers : list paper) :
  years_parse int_of_str papers ->
  year_cutoff <= current_year ->
  filtered_papers int_of_str current_year year_cutoff papers =
    Ok (List.filter (kept_by_cutoff int_of_str year_cutoff) papers)
  /\ (forall p, p ∈ papers -> stated_year p = None ->
                p ∈ List.filter (kept_by_cutoff int_of_str year_cutoff) papers)
  /\ (forall p v, p ∈ papers -> stated_year p = Some v ->
                  py_int int_of_str v = Ok year_cutoff ->
                  p ∈ List.filter (kept_by_cutoff int_of_str year_cutoff) papers).
Proof.
  intros Hparse Hcut. split; [|split].
  - rewrite filtered_papers_filter by done. f_equal.
    apply filter_ext. intros p. unfold kept_by_filter, kept_by_cutoff.
    destruct (stated_year p); [done|]. by apply Z.leb_le.
  - intros p Hin Hyear. apply list_elem_of_In, filter_In. split.
    + by apply list_elem_of_In.
    + unfold kept_by_cutoff. by rewrite Hyear.
  - intros p v Hin Hyear Hint. apply list_elem_of_In, filter_In. split.
    + by apply list_elem_of_In.
    + unfold kept_by_cutoff. rewrite Hyear, Hint. by apply Z.leb_le.
Qed.

Lemma filtered_papers_exact_witness :
  filtered_papers decimal 2024 2020
    [mk_paper (Some (VStr "2023")) None; mk_paper (Some (VStr "2019")) None;
     mk_paper None None; mk_paper (Some (VInt 2020)) None]
  = Ok [mk_paper (Some (VStr "2023")) None; mk_paper None None;
        mk_paper (Some (VInt 2020)) None].
Proof.
  refine (proj1 (filtered_papers_exact decimal 2024 2020 _ _ _)).
  - intros p v Hin Hyear.
    repeat (apply elem_of_cons in Hin as [->|Hin]); try (by apply elem_of_nil in Hin);
      cbn in Hyear; simplify_eq; eexists; reflexivity.
  - lia.
Defined.

(** With a cutoff after the current year (a negative number of years back) a
    publication without a year is dropped, although the rule as specified
    keeps it. *)
Lemma filtered_papers_missing_year_dropped :
  stated_year (mk_paper None (Some "A B and C D")) = None
  /\ filtered_papers decimal 2024 2025 [mk_paper None (Some "A B and C D")] = Ok []
  /\ List.filter (kept_by_cutoff decimal 2025) [mk_paper None (Some "A B and C D")]
     = [mk_paper None (Some "A B and C D")].
Proof. repeat split. Qed.

(** ** Computations that only log *)

Section Logs.

Context {A B : Type}.

Lemma logs_ret (a : A) : logs (ret a) (Ok a) [].
Proof. intros w. unfold ret. rewrite app_nil_r. by destruct w. Qed.

Lemma logs_raise (e : exn) : logs (raise e : M A) (Raise e) [].
Proof. intros w. unfold raise. rewrite app_nil_r. by destruct w. Qed.

Lemma logs_lift (r : result A) : logs (lift r) r [].
Proof. intros w. unfold lift. rewrite app_nil_r. by destruct w. Qed.

Lemma logs_bind (m : M A) (k : A -> M B) a evs r evs' :
  logs m (Ok a) evs -> logs (k a) r evs' -> logs (bind m k) r (evs ++ evs').
Proof.
  intros Hm Hk w. unfold bind. rewrite Hm, Hk. cbn [log files].
  by rewrite app_assoc.
Qed.

Lemma logs_bind_raise (m : M A) (k : A -> M B) e evs :
  logs m (Raise e) evs -> logs (bind m k) (Raise e) evs.
Proof. intros Hm w. unfold bind. by rewrite Hm. Qed.

Lemma logs_try_ok (m : M A) (handler : exn -> M A) a evs :
  logs m (Ok a) evs -> logs (try_except m handler) (Ok a) evs.
Proof. intros Hm w. unfold try_except. by rewrite Hm. Qed.

Lemma logs_try_raise (m : M A) (handler : exn -> M A) e evs r evs' :
  logs m (Raise e) evs -> logs (handler e) r evs' ->
  logs (try_except m handler) r (evs ++ evs').
Proof.
  intros Hm Hh w. unfold try_except. rewrite Hm, Hh. cbn [log files].
  by rewrite app_assoc.
Qed.

Lemma logs_outcome (m : M A) r evs (w : world) : logs m r evs -> outcome m w = r.
Proof. intros Hm. unfold outcome. by rewrite Hm. Qed.

End Logs.

Lemma logs_emit (e : event) : logs (emit e) (Ok tt) [e].
Proof. by intros w. Qed.

(** ** Looking up one co-author *)

Section Lookup.

Variable scholarly : source.
Variable pub_years : year_set.

Lemma check_publications_none (affiliation : string) (pubs : list paper)
    (validated : string) :
  (forall pub, pub ∈ pubs -> candidate_pub_year pub ∉ pub_years) ->
  check_publications pub_years affiliation pubs validated = validated.
Proof.
  induction pubs as [|pub pubs IH]; intros Hnone; [done|].
  cbn [check_publications]. rewrite decide_False by (apply Hnone; by left).
  apply IH. intros q Hq. apply Hnone. by right.
Qed.

Lemma check_publications_some (affiliation : string) (pubs : list paper)
    (validated : string) :
  (exists pub, pub ∈ pubs /\ candidate_pub_year pub ∈ pub_years) ->
  check_publications pub_years affiliation pubs validated = affiliation.
Proof.
  induction pubs as [|pub pubs IH]; intros (q & Hq & Hyear).
  - by apply elem_of_nil in Hq.
  - cbn [check_publications]. case_decide; [done|].
    apply IH. apply elem_of_cons in Hq as [->|Hq]; [done|]. by exists q.
Qed.

Lemma check_publications_cases (affiliation : string) (pubs : list paper)
    (validated : string) :
  ((exists pub, pub ∈ pubs /\ candidate_pub_year pub ∈ pub_years)
   /\ check_publications pub_years affiliation pubs validated = affiliation)
  \/ ((forall pub, pub ∈ pubs -> candidate_pub_year pub ∉ pub_years)
      /\ check_publications pub_years affiliation pubs validated = validated).
Proof.
  induction pubs as [|pub pubs IH].
  - right. split; [|done]. intros pub Hpub. by apply elem_of_nil in Hpub.
  - cbn [check_publications]. case_decide as Hyear.
    + left. split; [|done]. exists pub. split; [by left|done].
    + destruct IH as [[(q & Hq & Hqy) Heq]|[Hnone Heq]].
      * left. split; [|done]. exists q. split; [by right|done].
      * right. split; [|done]. intros q Hq.
        apply elem_of_cons in Hq as [->|Hq]; [done|by apply Hnone].
Qed.

Lemma check_candidates_logs (candidates : list author_record)
    (failure : option exn) (validated : string) :
  exists r evs, logs (check_candidates scholarly pub_years candidates failure validated) r evs.
Proof.
  revert validated. induction candidates as [|c cs IH]; intros validated.
  - cbn [check_candidates]. destruct failure; eexists _, _.
    + apply logs_raise.
    + apply logs_ret.
  - cbn [check_candidates].
    destruct (fill scholarly c) as [filled|e] eqn:Hfill.
    + pose (v := check_publications pub_years
                   (default "Unknown Institution" (affiliation filled))
                   (default [] (publications filled)) validated).
      destruct (IH v) as (r & evs & Hrest).
      destruct (decide (v <> "Unknown Institution")) as [Hv|Hv].
      * eexists _, _. eapply logs_bind; [apply logs_emit|].
        eapply logs_bind; [apply logs_lift|]. cbv zeta. fold v.
        rewrite decide_True by done. apply logs_ret.
      * eexists _, _. eapply logs_bind; [apply logs_emit|].
        eapply logs_bind; [apply logs_lift|]. cbv zeta. fold v.
        rewrite decide_False by done. apply Hrest.
    + eexists _, _. eapply logs_bind; [apply logs_emit|].
      apply logs_bind_raise. apply logs_lift.
Qed.

(** Without a candidate that has a matching year the loop ends, if it ends
    normally, with the affiliation it started from. *)
Lemma check_candidates_no_match (candidates : list author_record)
    (failure : option exn) (w : world) (validated : string) :
  (forall c, c ∈ candidates -> ~ has_matching_year scholarly pub_years c) ->
  outcome (check_candidates scholarly pub_years candidates failure "Unknown Institution") w
    = Ok validated ->
  validated = "Unknown Institution".
Proof.
  revert w. unfold outcome.
  induction candidates as [|c cs IH]; intros w Hnone.
  - cbn [check_candidates]. destruct failure; unfold raise, ret; cbn [fst]; congruence.
  - cbn [check_candidates]. unfold bind, emit, lift.
    destruct (fill scholarly c) as [filled|e] eqn:Hfill; [|done].
    cbv zeta. rewrite check_publications_none.
    + rewrite decide_False by (intros H; by apply H).
      apply IH. intros c' Hc'. apply Hnone. by right.
    + intros pub Hpub Hyear. apply (Hnone c); [by left|].
      by exists filled, pub.
Qed.

Lemma lookup_logs (coauthor : string) :
  exists r evs, logs (lookup scholarly coauthor pub_years) r evs.
Proof.
  unfold lookup. cbv zeta.
  destruct (if decide (pub_years = ∅) then Ok (VStr "Unknown") else py_max pub_years)
    as [latest|e] eqn:Hlatest.
  - destruct (check_candidates_logs (yielded (search_author scholarly coauthor))
                (failure (search_author scholarly coauthor)) "Unknown Institution")
      as ([v|e] & evs & Hcs).
    + eexists _, _. eapply logs_bind; [apply logs_emit|].
      eapply logs_bind; [apply logs_lift|].
      eapply logs_bind; [apply Hcs|]. apply logs_ret.
    + eexists _, _. eapply logs_bind; [apply logs_emit|].
      eapply logs_bind; [apply logs_lift|].
      apply logs_bind_raise, Hcs.
  - eexists _, _. eapply logs_bind; [apply logs_emit|].
    apply logs_bind_raise. apply logs_lift.
Qed.

Lemma lookup_outcome_indep (coauthor : string) (w w' : world) :
  outcome (lookup scholarly coauthor pub_years) w
  = outcome (lookup scholarly coauthor pub_years) w'.
Proof.
  destruct (lookup_logs coauthor) as (r & evs & H).
  by rewrite !(logs_outcome _ r evs).
Qed.

(** The year a successful lookup returns is the greatest of the set. *)
Lemma lookup_latest (coauthor : string) (w : world) (validated : string) (latest : pyval) :
  outcome (lookup scholarly coauthor pub_years) w = Ok (validated, latest) ->
  latest_of pub_years latest.
Proof.
  unfold outcome, lookup, latest_of, bind, emit, lift, ret. cbv zeta.
  destruct (decide (pub_years = ∅)) as [Hempty|Hne].
  - destruct (check_candidates _ _ _ _ _ _) as [[v|e] w']; cbn [fst]; congruence.
  - destruct (py_max pub_years) as [m|e]; [|done].
    destruct (check_candidates _ _ _ _ _ _) as [[v|e] w']; cbn [fst]; congruence.
Qed.

Lemma lookup_no_match (coauthor : string) (w : world) (validated : string) (latest : pyval) :
  (forall c, c ∈ yielded (search_author scholarly coauthor) ->
             ~ has_matching_year scholarly pub_years c) ->
  outcome (lookup scholarly coauthor pub_years) w = Ok (validated, latest) ->
  validated = "Unknown Institution".
Proof.
  intros Hnone. unfold outcome, lookup, bind, emit, lift, ret. cbv zeta.
  destruct (if decide (pub_years = ∅) then _ else _) as [m|e]; [|done].
  destruct (check_candidates _ _ _ _ _ _) as [[v|e] w'] eqn:Hcs; cbn [fst]; [|done].
  intros [= <- <-].
  eapply check_candidates_no_match; [exact Hnone|].
  unfold outcome. by rewrite Hcs.
Qed.

End Lookup.

(** ** The batch of lookups *)

Section Batch.

Variable scholarly : source.

Lemma recorded_ok (coauthor : string) (pub_years : year_set) (w : world)
    (found : string * pyval) :
  outcome (lookup scholarly coauthor pub_years) w = Ok found ->
  recorded scholarly (coauthor, pub_years) = (coauthor, found).
Proof.
  intros H. unfold recorded. cbn [fst snd].
  by rewrite (lookup_outcome_indep _ _ _ _ w), H.
Qed.

Lemma recorded_raise (coauthor : string) (pub_years : year_set) (w : world) (e : exn) :
  outcome (lookup scholarly coauthor pub_years) w = Raise e ->
  recorded scholarly (coauthor, pub_years) = (coauthor, placeholder).
Proof.
  intros H. unfold recorded. cbn [fst snd].
  by rewrite (lookup_outcome_indep _ _ _ _ w), H.
Qed.

Lemma validate_loop_logs (items : list (string * year_set))
    (acc : dict (string * pyval)) :
  NoDup (PyDict.keys items) ->
  (forall k, k ∈ PyDict.keys items -> k ∉ PyDict.keys acc) ->
  exists evs,
    logs (validate_loop scholarly items acc)
         (Ok (acc ++ List.map (recorded scholarly) items)%list) evs
    /\ forall c ys e w,
         (c, ys) ∈ items ->
         outcome (lookup scholarly c ys) w = Raise e ->
         Print (MsgError c e) ∈ evs.
Proof.
  revert acc. induction items as [|[c ys] items IH]; intros acc Hnodup Hfresh.
  - exists []. split.
    + cbn [validate_loop List.map]. rewrite app_nil_r. apply logs_ret.
    + intros ? ? ? ? Hin. by apply elem_of_nil in Hin.
  - cbn [PyDict.keys List.map fst] in Hnodup. apply NoDup_cons in Hnodup as [Hc Hnodup].
    assert (Hacc : c ∉ PyDict.keys acc) by (apply Hfresh; by left).
    destruct (lookup_logs scholarly ys c) as (r & evs & Hlookup).
    assert (Hnext : forall v : string * pyval,
               forall k, k ∈ PyDict.keys items -> k ∉ PyDict.keys (acc ++ [(c, v)])%list).
    { intros v k Hk. unfold PyDict.keys. rewrite map_app. cbn [List.map fst].
      rewrite not_elem_of_app, not_elem_of_cons. split; [|split].
      - apply Hfresh. by right.
      - intros ->. by apply Hc.
      - apply not_elem_of_nil. }
    cbn [validate_loop]. destruct r as [found|e].
    + destruct (IH (acc ++ [(c, found)])%list Hnodup (Hnext found)) as (evs' & Hrest & Hlog).
      eexists. split.
      * eapply logs_bind.
        { apply logs_try_ok. eapply logs_bind; [apply Hlookup|]. cbv zeta.
          eapply logs_bind; [apply logs_emit|]. apply logs_ret. }
        rewrite keys_set_fresh by done.
        cbn [List.map].
        rewrite (recorded_ok c ys fresh_world found) by (by eapply logs_outcome).
        rewrite <- app_assoc in Hrest. exact Hrest.
      * intros c' ys' e w Hin Hraise.
        apply elem_of_cons in Hin as [[= -> ->]|Hin].
        { rewrite (logs_outcome _ _ _ w Hlookup) in Hraise. done. }
        apply elem_of_app. right. by eapply Hlog.
    + destruct (IH (acc ++ [(c, placeholder)])%list Hnodup (Hnext placeholder))
        as (evs' & Hrest & Hlog).
      eexists. split.
      * eapply logs_bind.
        { eapply logs_try_raise.
          - apply logs_bind_raise, Hlookup.
          - eapply logs_bind; [apply logs_emit|]. apply logs_ret. }
        rewrite keys_set_fresh by done.
        cbn [List.map].
        rewrite (recorded_raise c ys fresh_world e) by (by eapply logs_outcome).
        rewrite <- app_assoc in Hrest. exact Hrest.
      * intros c' ys' e' w Hin Hraise.
        apply elem_of_cons in Hin as [[= -> ->]|Hin].
        { rewrite (logs_outcome _ _ _ w Hlookup) in Hraise. injection Hraise as <-.
          apply elem_of_app. left. apply elem_of_app. right.
          apply elem_of_app. left. by left. }
        apply elem_of_app. right. by eapply Hlog.
Qed.

(** The batch never raises: it returns one entry per co-author, in the order
    of the mapping it was given. *)
Lemma get_validated_affiliations_logs (coauthors_with_years : dict year_set) :
  PyDict.wf coauthors_with_years ->
  exists evs,
    logs (_get_validated_affiliations scholarly coauthors_with_years)
         (Ok (List.map (recorded scholarly) coauthors_with_years)) evs
    /\ forall c ys e w,
         (c, ys) ∈ coauthors_with_years ->
         outcome (lookup scholarly c ys) w = Raise e ->
         Print (MsgError c e) ∈ evs.
Proof.
  intros Hwf.
  destruct (validate_loop_logs coauthors_with_years [] Hwf) as (evs & Hloop & Hlog).
  { intros k _. apply not_elem_of_nil. }
  eexists. split.
  - unfold _get_validated_affiliations. eapply logs_bind; [apply logs_emit|]. exact Hloop.
  - intros c ys e w Hin Hraise. right. by eapply Hlog.
Qed.

Lemma keys_recorded (d : dict year_set) :
  PyDict.keys (List.map (recorded scholarly) d) = PyDict.keys d.
Proof. unfold PyDict.keys. rewrite map_map. by apply map_ext. Qed.

Lemma get_recorded (d : dict year_set) (c : string) (ys : year_set) :
  PyDict.get c d = Some ys ->
  PyDict.get c (List.map (recorded scholarly) d) = Some (snd (recorded scholarly (c, ys))).
Proof.
  induction d as [|[k v] d IH]; [done|]. cbn [List.map PyDict.get].
  unfold recorded at 1. cbn [fst snd].
  destruct (decide (k = c)) as [->|Hne].
  - by intros [= ->].
  - exact IH.
Qed.

End Batch.

(** ** Co-author extraction *)

Section Extraction.

Variable my_name : option string.

Lemma add_years_empty (held : option year_set) : add_years held ∅ = held.
Proof. unfold add_years. by rewrite decide_True. Qed.

Lemma add_years_singleton (held : option year_set) (y : pyval) :
  add_years held {[y]} = Some (default ∅ held ∪ {[y]}).
Proof. unfold add_years. rewrite decide_False; [done|set_solver]. Qed.

Lemma add_years_add (held : option year_set) (s t : year_set) :
  add_years (add_years held s) t = add_years held (s ∪ t).
Proof.
  unfold add_years.
  destruct (decide (s = ∅)) as [->|Hs], (decide (t = ∅)) as [->|Ht].
  - rewrite decide_True by set_solver. done.
  - rewrite decide_False by set_solver. f_equal. set_solver.
  - rewrite decide_False by set_solver. cbn [from_option id]. f_equal. set_solver.
  - rewrite decide_False by set_solver. cbn [from_option id]. f_equal. set_solver.
Qed.

Lemma get_record_coauthors (paper_year : pyval) (coauthors : list string)
    (u : dict year_set) (k : string) :
  PyDict.get k (record_coauthors my_name paper_year coauthors u) =
    add_years (PyDict.get k u)
      (if decide (k ∈ coauthors /\ Some k <> my_name) then {[paper_year]} else ∅).
Proof.
  revert u. induction coauthors as [|c cs IH]; intros u.
  - cbn [record_coauthors]. rewrite decide_False by (intros [H _]; by apply elem_of_nil in H).
    by rewrite add_years_empty.
  - cbn [record_coauthors]. destruct (decide (Some c = my_name)) as [Hme|Hother].
    + rewrite IH. f_equal.
      destruct (decide (k ∈ cs /\ Some k <> my_name)) as [[Hin Hne]|Hno].
      * rewrite decide_True; [done|]. split; [by right|done].
      * rewrite decide_False; [done|]. intros [Hin Hne]. apply Hno. split; [|done].
        apply elem_of_cons in Hin as [->|Hin]; [done|done].
    + rewrite IH.
      assert (Hset : match PyDict.get c u with
                     | Some years => PyDict.set c (years ∪ {[paper_year]}) u
                     | None => PyDict.set c {[paper_year]} u
                     end = PyDict.set c (default ∅ (PyDict.get c u) ∪ {[paper_year]}) u).
      { destruct (PyDict.get c u); cbn [from_option id]; [done|].
        f_equal. set_solver. }
      rewrite Hset. clear Hset.
      destruct (decide (c = k)) as [->|Hck].
      * rewrite get_set_eq.
        rewrite (decide_True (P := k ∈ k :: cs /\ Some k <> my_name))
          by (split; [by left|done]).
        rewrite (add_years_singleton (PyDict.get k u)).
        destruct (decide (k ∈ cs /\ Some k <> my_name)).
        -- rewrite add_years_singleton. cbn [from_option id]. f_equal. set_solver.
        -- by rewrite add_years_empty.
      * rewrite get_set_ne by done. f_equal.
        destruct (decide (k ∈ cs /\ Some k <> my_name)) as [[Hin Hne]|Hno].
        -- rewrite decide_True; [done|]. split; [by right|done].
        -- rewrite decide_False; [done|]. intros [Hin Hne]. apply Hno. split; [|done].
           apply elem_of_cons in Hin as [->|Hin]; [done|done].
Qed.

Lemma get_record_paper (b : bib_entry) (u : dict year_set) (k : string) :
  PyDict.get k (record_paper my_name b u) =
    add_years (PyDict.get k u)
      (if decide (Some k = my_name) then ∅
       else if decide (k ∈ coauthors_of b) then {[paper_year_of b]} else ∅).
Proof.
  unfold record_paper, coauthors_of. destruct (author b) as [authors|].
  - rewrite get_record_coauthors. f_equal.
    destruct (decide (Some k = my_name)) as [Hme|Hother].
    + rewrite decide_False; [done|]. by intros [_ H].
    + destruct (decide (k ∈ PyStr.split " and " authors)).
      * by rewrite decide_True.
      * rewrite decide_False; [done|]. by intros [H _].
  - destruct (decide (Some k = my_name)); [by rewrite add_years_empty|].
    rewrite decide_False by apply not_elem_of_nil. by rewrite add_years_empty.
Qed.

Lemma get_record_papers (bibs : list bib_entry) (u : dict year_set) (k : string) :
  PyDict.get k (record_papers my_name bibs u) =
    add_years (PyDict.get k u)
      (if decide (Some k = my_name) then ∅ else years_with k bibs).
Proof.
  revert u. unfold record_papers. induction bibs as [|b bibs IH]; intros u.
  - cbn [List.fold_left years_with]. destruct (decide (Some k = my_name)); by rewrite add_years_empty.
  - cbn [List.fold_left years_with]. rewrite IH, get_record_paper, add_years_add.
    f_equal. destruct (decide (Some k = my_name)); set_solver.
Qed.

Lemma wf_record_coauthors (paper_year : pyval) (coauthors : list string)
    (u : dict year_set) :
  PyDict.wf u -> PyDict.wf (record_coauthors my_name paper_year coauthors u).
Proof.
  revert u. induction coauthors as [|c cs IH]; intros u Hwf; [done|].
  cbn [record_coauthors]. case_decide; [by apply IH|].
  apply IH. destruct (PyDict.get c u); by apply wf_set.
Qed.

Lemma wf_record_papers (bibs : list bib_entry) (u : dict year_set) :
  PyDict.wf u -> PyDict.wf (record_papers my_name bibs u).
Proof.
  revert u. unfold record_papers. induction bibs as [|b bibs IH]; intros u Hwf; [done|].
  cbn [List.fold_left]. apply IH. unfold record_paper.
  destruct (author b); [|done]. by apply wf_record_coauthors.
Qed.

Lemma elem_of_years_with (raw : string) (bibs : list bib_entry) (y : pyval) :
  y ∈ years_with raw bibs <->
  exists b, b ∈ bibs /\ raw ∈ coauthors_of b /\ paper_year_of b = y.
Proof.
  induction bibs as [|b bibs IH]; cbn [years_with].
  - split; [set_solver|]. intros (b & Hb & _). by apply elem_of_nil in Hb.
  - rewrite elem_of_union, IH. split.
    + intros [Hhere|(b' & Hb' & Hrest)].
      * case_decide; [|set_solver]. exists b. split; [by left|]. set_solver.
      * exists b'. split; [by right|done].
    + intros (b' & Hb' & Hin & Hy). apply elem_of_cons in Hb' as [->|Hb'].
      * left. rewrite decide_True by done. set_solver.
      * right. by exists b'.
Qed.

End Extraction.

(** ** Renaming the keys *)

Lemma rename_fold (items acc : dict year_set) :
  NoDup (PyDict.keys acc ++ List.map reordered_name (PyDict.keys items))%list ->
  List.fold_left
    (fun acc '(name, years) =>
       PyDict.set (List.hd EmptyString (_nsf_name_cleanup [name])) years acc)
    items acc
  = (acc ++ List.map renamed items)%list.
Proof.
  revert acc. induction items as [|[name years] items IH]; intros acc Hnodup.
  - cbn [List.fold_left List.map]. by rewrite app_nil_r.
  - cbn [List.fold_left List.map]. unfold _nsf_name_cleanup. cbn [List.map List.hd].
    cbn [PyDict.keys List.map fst] in Hnodup.
    rewrite keys_set_fresh.
    + rewrite IH.
      * by rewrite <- app_assoc.
      * unfold PyDict.keys in *. rewrite map_app. cbn [List.map fst].
        by rewrite <- app_assoc.
    + apply NoDup_app in Hnodup as (_ & Hdisj & _).
      intros Hin. apply (Hdisj _ Hin). by left.
Qed.

Lemma rename_keys_renamed (u : dict year_set) :
  PyDict.wf u -> rename_keys u = List.map renamed u.
Proof.
  intros Hwf. unfold rename_keys. rewrite rename_fold; [done|].
  cbn [PyDict.keys List.map app].
  assert (Hinj : Inj (=) (=) reordered_name)
    by (intros x y; apply reordered_name_inj).
  exact (NoDup_fmap_2 reordered_name _ Hwf).
Qed.

Lemma keys_renamed (u : dict year_set) :
  PyDict.keys (List.map renamed u) = List.map reordered_name (PyDict.keys u).
Proof. unfold PyDict.keys. rewrite !map_map. by apply map_ext. Qed.

Lemma get_renamed (u : dict year_set) (raw : string) :
  PyDict.get (reordered_name raw) (List.map renamed u) = PyDict.get raw u.
Proof.
  induction u as [|[k v] u IH]; [done|]. cbn [List.map PyDict.get].
  unfold renamed at 1. cbn [fst snd].
  destruct (decide (k = raw)) as [->|Hne].
  - by rewrite decide_True.
  - rewrite decide_False; [done|]. intros Heq. by apply Hne, reordered_name_inj.
Qed.

Lemma get_renamed_inv (u : dict year_set) (key : string) (years : year_set) :
  PyDict.get key (List.map renamed u) = Some years ->
  exists raw, key = reordered_name raw /\ PyDict.get raw u = Some years.
Proof.
  induction u as [|[k v] u IH]; [done|]. cbn [List.map PyDict.get].
  unfold renamed at 1. cbn [fst snd].
  destruct (decide (reordered_name k = key)) as [<-|Hne].
  - intros [= ->]. exists k. split; [done|]. by rewrite decide_True.
  - intros Hget. destruct (IH Hget) as (raw & -> & Hraw). exists raw. split; [done|].
    rewrite decide_False; [done|]. by intros ->.
Qed.

(** ** The extraction stage as a whole *)

Section UniqueCoauthors.

Variable int_of_str : string -> option Z.
Variable scholarly : source.
Variable my_name : option string.

Lemma extract_loop_logs (papers : list paper) (u : dict year_set) :
  exists evs,
    logs (extract_loop scholarly my_name papers u)
         (match filled_bibs scholarly papers with
          | Ok bibs => Ok (record_papers my_name bibs u)
          | Raise e => Raise e
          end) evs.
Proof.
  revert u. induction papers as [|p papers IH]; intros u.
  - eexists. apply logs_ret.
  - cbn [extract_loop filled_bibs].
    destruct (fill_bib scholarly p) as [paper_full|e].
    + destruct (bib paper_full) as [b|] eqn:Hbib; cbn [item].
      * destruct (IH (record_paper my_name b u)) as (evs & Hrest).
        eexists. eapply logs_bind; [apply logs_emit|].
        eapply logs_bind; [apply logs_lift|].
        cbv beta. rewrite Hbib. cbn [item].
        eapply logs_bind; [apply logs_lift|].
        destruct (filled_bibs scholarly papers); exact Hrest.
      * eexists. eapply logs_bind; [apply logs_emit|].
        eapply logs_bind; [apply logs_lift|].
        cbv beta. rewrite Hbib. cbn [item].
        apply logs_bind_raise, logs_lift.
    + eexists. eapply logs_bind; [apply logs_emit|].
      apply logs_bind_raise, logs_lift.
Qed.

(** The extraction stage raises exactly when the filter, a [fill] or a
    missing [bib] does, and otherwise returns the collected mapping under the
    cleaned-up names. *)
Lemma get_unique_coauthors_logs (current_year : Z) (papers : list paper)
    (year_cutoff : Z) :
  exists evs,
    logs (_get_unique_coauthors int_of_str scholarly current_year papers year_cutoff my_name)
         (match filtered_papers int_of_str current_year year_cutoff papers with
          | Raise e => Raise e
          | Ok filtered =>
              match filled_bibs scholarly filtered with
              | Raise e => Raise e
              | Ok bibs => Ok (List.map renamed (record_papers my_name bibs []))
              end
          end) evs.
Proof.
  unfold _get_unique_coauthors.
  destruct (filtered_papers int_of_str current_year year_cutoff papers) as [filtered|e].
  - destruct (extract_loop_logs filtered []) as (evs & Hloop).
    destruct (filled_bibs scholarly filtered) as [bibs|e].
    + eexists. eapply logs_bind; [apply logs_lift|].
      eapply logs_bind; [apply logs_emit|].
      eapply logs_bind; [apply Hloop|].
      rewrite rename_keys_renamed; [apply logs_ret|].
      apply wf_record_papers. apply NoDup_nil_2.
    + eexists. eapply logs_bind; [apply logs_lift|].
      eapply logs_bind; [apply logs_emit|].
      apply logs_bind_raise, Hloop.
  - eexists. apply logs_bind_raise, logs_lift.
Qed.

End UniqueCoauthors.

(** C4.  When the filter and every [fill] of a retained publication succeed,
    the extraction stage returns a mapping with one entry per cleaned-up
    name: every name (other than the subject's) that appears in the author
    field of a retained publication has exactly one entry, under its
    cleaned-up form, and the year-set of that entry is the union of the
    years of all the publications in which the name appears; the mapping has
    no other entries. *)
Theorem unique_coauthors_union (int_of_str : string -> option Z) (scholarly : source)
    (current_year : Z) (papers : list paper) (year_cutoff : Z)
    (my_name : option string) (filtered : list paper) (bibs : list bib_entry)
    (w : world) :
  filtered_papers int_of_str current_year year_cutoff papers = Ok filtered ->
  filled_bibs scholarly filtered = Ok bibs ->
  exists d w',
    _get_unique_coauthors int_of_str scholarly current_year papers year_cutoff my_name w
      = (Ok d, w')
    /\ NoDup (PyDict.keys d)
    /\ (forall raw b,
          b ∈ bibs -> raw ∈ coauthors_of b -> Some raw <> my_name ->
          PyDict.get (reordered_name raw) d = Some (years_with raw bibs))
    /\ (forall key years,
          PyDict.get key d = Some years ->
          exists raw b,
            key = reordered_name raw /\ Some raw <> my_name
            /\ b ∈ bibs /\ raw ∈ coauthors_of b /\ years = years_with raw bibs)
    /\ (forall raw y,
          y ∈ years_with raw bibs <->
          exists b, b ∈ bibs /\ raw ∈ coauthors_of b /\ paper_year_of b = y).
Proof.
  intros Hfiltered Hbibs.
  destruct (get_unique_coauthors_logs int_of_str scholarly my_name
              current_year papers year_cutoff) as (evs & Hrun).
  rewrite Hfiltered, Hbibs in Hrun.
  eexists _, _. split; [apply Hrun|].
  split; [|split; [|split]].
  - rewrite keys_renamed.
    assert (Hinj : Inj (=) (=) reordered_name)
      by (intros x y; apply reordered_name_inj).
    apply (NoDup_fmap_2 reordered_name).
    apply (wf_record_papers my_name bibs []). apply NoDup_nil_2.
  - intros raw b Hb Hraw Hother.
    rewrite get_renamed, get_record_papers. cbn [PyDict.get].
    rewrite decide_False by done. unfold add_years.
    rewrite decide_False.
    + cbn [from_option id]. f_equal. set_solver.
    + intros Hempty.
      assert (Hy : paper_year_of b ∈ years_with raw bibs)
        by (apply elem_of_years_with; by exists b).
      rewrite Hempty in Hy. set_solver.
  - intros key years Hget.
    apply get_renamed_inv in Hget as (raw & -> & Hget).
    rewrite get_record_papers in Hget. cbn [PyDict.get] in Hget.
    unfold add_years in Hget.
    destruct (decide (Some raw = my_name)) as [Hme|Hother].
    + by rewrite decide_True in Hget.
    + destruct (decide (years_with raw bibs = ∅)) as [Hempty|Hsome]; [done|].
      injection Hget as <-.
      apply set_choose_L in Hsome as [y Hy].
      apply elem_of_years_with in Hy as (b & Hb & Hraw & _).
      exists raw, b. repeat split; try done. cbn [from_option id]. set_solver.
  - intros raw y. apply elem_of_years_with.
Qed.

Lemma unique_coauthors_union_witness :
  exists d w',
    _get_unique_coauthors decimal quiet_source 2024
      [mk_paper (Some (VStr "2023")) (Some "A B and C D");
       mk_paper (Some (VStr "2020")) (Some "A B and C D");
       mk_paper (Some (VStr "2019")) (Some "A B and E F")]
      2020 (Some "A B") fresh_world = (Ok d, w')
    /\ PyDict.keys d = ["D, C"]
    /\ PyDict.get "D, C" d = Some {[VStr "2023"; VStr "2020"]}.
Proof.
  destruct (unique_coauthors_union decimal quiet_source 2024
              [mk_paper (Some (VStr "2023")) (Some "A B and C D");
               mk_paper (Some (VStr "2020")) (Some "A B and C D");
               mk_paper (Some (VStr "2019")) (Some "A B and E F")]
              2020 (Some "A B")
              [mk_paper (Some (VStr "2023")) (Some "A B and C D");
               mk_paper (Some (VStr "2020")) (Some "A B and C D")]
              [{| title := None; pub_year := Some (VStr "2023"); author := Some "A B and C D" |};
               {| title := None; pub_year := Some (VStr "2020"); author := Some "A B and C D" |}]
              fresh_world eq_refl eq_refl)
    as (d & w' & Hrun & _ & _ & _ & _).
  exists d, w'. split; [exact Hrun|].
  vm_compute in Hrun. injection Hrun as <- _. split; reflexivity.
Defined.

(** ** Affiliation validation *)

(** C7.  The batch of lookups returns normally with one result per
    co-author, under the same names and in the same order.  A co-author
    whose lookup raises is stored with the placeholder pair
    ("Unknown Institution", "Unknown") and the error is printed; every other
    co-author is stored with what its lookup returned. *)
Theorem lookup_errors_are_contained (scholarly : source)
    (coauthors_with_years : dict year_set) (w : world) :
  PyDict.wf coauthors_with_years ->
  exists r w',
    _get_validated_affiliations scholarly coauthors_with_years w = (Ok r, w')
    /\ PyDict.keys r = PyDict.keys coauthors_with_years
    /\ (forall coauthor pub_years e w0,
          PyDict.get coauthor coauthors_with_years = Some pub_years ->
          outcome (lookup scholarly coauthor pub_years) w0 = Raise e ->
          PyDict.get coauthor r = Some ("Unknown Institution", VStr "Unknown")
          /\ Print (MsgError coauthor e) ∈ log w')
    /\ (forall coauthor pub_years found w0,
          PyDict.get coauthor coauthors_with_years = Some pub_years ->
          outcome (lookup scholarly coauthor pub_years) w0 = Ok found ->
          PyDict.get coauthor r = Some found).
Proof.
  intros Hwf.
  destruct (get_validated_affiliations_logs scholarly coauthors_with_years Hwf)
    as (evs & Hrun & Hlog).
  eexists _, _. split; [apply Hrun|]. split; [apply keys_recorded|]. split.
  - intros c ys e w0 Hget Hraise. split.
    + rewrite (get_recorded _ _ _ ys) by done.
      by rewrite (recorded_raise _ _ _ w0 e).
    + cbn [log]. apply elem_of_app. right.
      eapply Hlog; [|exact Hraise]. by apply get_Some_elem.
  - intros c ys found w0 Hget Hok.
    rewrite (get_recorded _ _ _ ys) by done.
    by rewrite (recorded_ok _ _ _ w0 found).
Qed.

Lemma lookup_errors_are_contained_witness :
  exists r w',
    _get_validated_affiliations failing_source
      [("D, C", {[VStr "2023"]}); ("F, E", {[VStr "2021"]})] fresh_world = (Ok r, w')
    /\ PyDict.keys r = ["D, C"; "F, E"]
    /\ PyDict.get "F, E" r = Some ("Unknown Institution", VStr "Unknown")
    /\ Print (MsgError "F, E" (SourceError "search failed")) ∈ log w'.
Proof.
  destruct (lookup_errors_are_contained failing_source
              [("D, C", {[VStr "2023"]}); ("F, E", {[VStr "2021"]})] fresh_world)
    as (r & w' & Hrun & Hkeys & Hraise & _).
  { unfold PyDict.wf. cbn. apply NoDup_cons. split; [|apply NoDup_singleton].
    intros H%list_elem_of_singleton. discriminate. }
  exists r, w'. split; [exact Hrun|]. split; [exact Hkeys|].
  apply (Hraise "F, E" {[VStr "2021"]} (SourceError "search failed") fresh_world);
    reflexivity.
Defined.

(** C2, as the code has it.  A co-author whose lookup returns normally and
    for whom no search candidate has a publication of one of the recorded
    years is stored with the affiliation "Unknown Institution" and with the
    latest year of the year-set: its greatest element, or "Unknown" when the
    set is empty. *)
Theorem no_match_keeps_latest_year (scholarly : source)
    (coauthors_with_years : dict year_set) (w w0 : world)
    (coauthor : string) (pub_years : year_set) (found : string * pyval) :
  PyDict.wf coauthors_with_years ->
  PyDict.get coauthor coauthors_with_years = Some pub_years ->
  (forall c, c ∈ yielded (search_author scholarly coauthor) ->
             ~ has_matching_year scholarly pub_years c) ->
  outcome (lookup scholarly coauthor pub_years) w0 = Ok found ->
  exists r w' latest,
    _get_validated_affiliations scholarly coauthors_with_years w = (Ok r, w')
    /\ PyDict.get coauthor r = Some ("Unknown Institution", latest)
    /\ (pub_years = ∅ -> latest = VStr "Unknown")
    /\ (pub_years <> ∅ -> py_max pub_years = Ok latest).
Proof.
  intros Hwf Hget Hnone Hok.
  destruct (get_validated_affiliations_logs scholarly coauthors_with_years Hwf)
    as (evs & Hrun & _).
  destruct found as [validated latest].
  eexists _, _, latest. split; [apply Hrun|].
  pose proof (lookup_no_match _ _ _ _ _ _ Hnone Hok) as ->.
  pose proof (lookup_latest _ _ _ _ _ _ Hok) as Hlatest. unfold latest_of in Hlatest.
  split.
  - rewrite (get_recorded _ _ _ pub_years) by done.
    by rewrite (recorded_ok _ _ _ w0 ("Unknown Institution", latest)).
  - split; intros Hys; by case_decide.
Qed.

Lemma no_match_keeps_latest_year_witness :
  exists r w' latest,
    _get_validated_affiliations quiet_source
      [("D, C", {[VStr "2023"; VStr "2021"]})] fresh_world = (Ok r, w')
    /\ PyDict.get "D, C" r = Some ("Unknown Institution", latest)
    /\ (({[VStr "2023"; VStr "2021"]} : year_set) = ∅ -> latest = VStr "Unknown")
    /\ (({[VStr "2023"; VStr "2021"]} : year_set) <> ∅ ->
        py_max {[VStr "2023"; VStr "2021"]} = Ok latest).
Proof.
  apply (no_match_keeps_latest_year quiet_source
           [("D, C", {[VStr "2023"; VStr "2021"]})] fresh_world fresh_world
           "D, C" {[VStr "2023"; VStr "2021"]} ("Unknown Institution", VStr "2023")).
  - apply NoDup_singleton.
  - reflexivity.
  - intros c Hc. cbn in Hc. by apply elem_of_nil in Hc.
  - reflexivity.
Defined.

(** A co-author with no candidate at all, and so no candidate with a
    matching year, whose lookup does not raise, is stored with the year 2023
    of the year-set and not with "Unknown". *)
Lemma no_match_not_placeholder :
  yielded (search_author quiet_source "D, C") = []
  /\ outcome (lookup quiet_source "D, C" {[VStr "2023"]}) fresh_world
     = Ok ("Unknown Institution", VStr "2023")
  /\ fst (_get_validated_affiliations quiet_source [("D, C", {[VStr "2023"]})] fresh_world)
     = Ok [("D, C", ("Unknown Institution", VStr "2023"))]
  /\ ("Unknown Institution", VStr "2023") <> placeholder.
Proof. repeat split. discriminate. Qed.

(** ** The candidate loop *)

(** The loop stops at the first candidate it accepts, takes that candidate's
    affiliation, and fills no candidate after it. *)
Lemma check_candidates_first_accepted (scholarly : source) (pub_years : year_set)
    (before after : list author_record) (c filled : author_record)
    (failure : option exn) :
  (forall b, b ∈ before ->
             exists fb, fill scholarly b = Ok fb /\ ~ accepted pub_years fb) ->
  fill scholarly c = Ok filled ->
  accepted pub_years filled ->
  logs (check_candidates scholarly pub_years (before ++ c :: after) failure
          "Unknown Institution")
       (Ok (default "Unknown Institution" (affiliation filled)))
       (List.map CallFill (before ++ [c])).
Proof.
  intros Hbefore Hfill [Hmatch Haff].
  induction before as [|b before IH].
  - cbn [app check_candidates List.map].
    change [CallFill c] with ([CallFill c] ++ ([] ++ []))%list.
    eapply logs_bind; [apply logs_emit|]. rewrite Hfill.
    eapply logs_bind; [apply logs_lift|]. cbv zeta.
    rewrite check_publications_some by done.
    rewrite decide_True by done. apply logs_ret.
  - destruct (Hbefore b) as (fb & Hfb & Hnot); [by left|].
    cbn [app check_candidates List.map].
    change (CallFill b :: List.map CallFill (before ++ [c]))%list
      with ([CallFill b] ++ ([] ++ List.map CallFill (before ++ [c])))%list.
    eapply logs_bind; [apply logs_emit|]. rewrite Hfb.
    eapply logs_bind; [apply logs_lift|]. cbv zeta.
    assert (Hkeep : check_publications pub_years
                      (default "Unknown Institution" (affiliation fb))
                      (default [] (publications fb)) "Unknown Institution"
                    = "Unknown Institution").
    { destruct (check_publications_cases pub_years
                  (default "Unknown Institution" (affiliation fb))
                  (default [] (publications fb)) "Unknown Institution")
        as [[Hm ->]|[_ ->]]; [|done].
      destruct (decide (default "Unknown Institution" (affiliation fb)
                        = "Unknown Institution")) as [->|Hne]; [done|].
      exfalso. apply Hnot. by split. }
    rewrite Hkeep. rewrite decide_False by (intros H; by apply H).
    apply IH. intros b' Hb'. apply Hbefore. by right.
Qed.

(** C1, at an input where the code departs from it.  The search yields two
    candidates that both have a publication of the recorded year 2023; the
    first has no affiliation.  The first candidate validates, yet the loop
    does not stop there: it goes on to fill the second candidate and stores
    the second candidate's affiliation. *)
Theorem first_validated_candidate_passed_over :
  yielded (search_author two_candidate_source "D, C")
    = [candidate_without_affiliation; candidate_with_affiliation]
  /\ has_matching_year two_candidate_source {[VStr "2023"]} candidate_without_affiliation
  /\ lookup two_candidate_source "D, C" {[VStr "2023"]} fresh_world
     = (Ok ("Example University", VStr "2023"),
        {| log := [CallSearchAuthor "D, C";
                   CallFill candidate_without_affiliation;
                   CallFill candidate_with_affiliation];
           files := ∅ |}).
Proof.
  split; [reflexivity|]. split; [|reflexivity].
  exists candidate_without_affiliation,
    {| bib := Some {| title := None; pub_year := Some (VStr "2023"); author := None |} |}.
  split; [reflexivity|]. split.
  - cbn. by left.
  - cbn. set_solver.
Qed.

(** ** The greatest year *)

Lemma string_ltb_irrefl (s : string) : String.ltb s s = false.
Proof.
  unfold String.ltb.
  assert (H : String.compare s s = Eq).
  { induction s as [|c s IH]; [done|]. cbn [String.compare].
    unfold Ascii.compare. by rewrite N.compare_refl. }
  by rewrite H.
Qed.

Lemma string_ltb_leb (s t : string) : String.ltb s t = negb (String.leb t s).
Proof.
  unfold String.ltb, String.leb. rewrite (String.compare_antisym s t).
  by destruct (String.compare t s).
Qed.

(** Nothing that is not above [best] is above something above [best]. *)
Lemma string_ltb_above (best x y : string) :
  String.ltb best x = true -> String.ltb best y = false -> String.ltb x y = false.
Proof.
  rewrite !string_ltb_leb. intros Hx Hy.
  apply negb_true_iff in Hx. apply negb_false_iff in Hy.
  apply negb_false_iff.
  destruct (String.leb_total best x) as [Hbx|Hxb]; [|congruence].
  apply Is_true_true.
  transitivity best; by apply Is_true_true.
Qed.

Lemma py_gt_irrefl (v : pyval) : py_gt v v = Ok false.
Proof.
  destruct v as [s|z]; cbn [py_gt]; f_equal.
  - apply string_ltb_irrefl.
  - apply Z.ltb_irrefl.
Qed.

Lemma py_gt_above (best x y : pyval) :
  py_gt x best = Ok true -> py_gt y best = Ok false -> py_gt y x = Ok false.
Proof.
  destruct best as [b|b], x as [x|x], y as [y|y]; cbn [py_gt]; try done;
    intros [= Hx] [= Hy]; f_equal.
  - by apply (string_ltb_above b).
  - lia.
Qed.

Lemma max_from_greatest (best : pyval) (items : list pyval) (m : pyval) :
  max_from best items = Ok m ->
  m ∈ best :: items
  /\ forall seen, (forall y, y ∈ seen -> py_gt y best = Ok false) ->
                  forall y, y ∈ (seen ++ best :: items)%list -> py_gt y m = Ok false.
Proof.
  revert best. induction items as [|x items IH]; intros best.
  - cbn [max_from]. intros [= <-]. split; [by left|].
    intros seen Hseen y Hy. apply elem_of_app in Hy as [Hy|Hy]; [by apply Hseen|].
    apply list_elem_of_singleton in Hy as ->. apply py_gt_irrefl.
  - cbn [max_from]. destruct (py_gt x best) as [[|]|e] eqn:Hx; [| |done].
    + intros Hm. destruct (IH x Hm) as [Hin Hmax]. split.
      * right. exact Hin.
      * intros seen Hseen y Hy.
        apply (Hmax (seen ++ [best])%list).
        -- intros z Hz. apply elem_of_app in Hz as [Hz|Hz].
           ++ by apply (py_gt_above best), Hseen.
           ++ apply list_elem_of_singleton in Hz as ->.
              apply (py_gt_above best); [done|apply py_gt_irrefl].
        -- by rewrite <- app_assoc.
    + intros Hm. destruct (IH best Hm) as [Hin Hmax]. split.
      * apply elem_of_cons in Hin as [->|Hin]; [by left|by right; right].
      * intros seen Hseen y Hy.
        apply (Hmax (seen ++ [x])%list).
        -- intros z Hz. apply elem_of_app in Hz as [Hz|Hz]; [by apply Hseen|].
           by apply list_elem_of_singleton in Hz as ->.
        -- rewrite !elem_of_app, !elem_of_cons in *. rewrite elem_of_nil. tauto.
Qed.

(** [max] returns an element of the set that no element is greater than. *)
Lemma py_max_greatest (s : year_set) (m : pyval) :
  py_max s = Ok m -> m ∈ s /\ forall y, y ∈ s -> py_gt y m = Ok false.
Proof.
  unfold py_max. destruct (elements s) as [|first rest] eqn:Hs; [done|].
  intros Hm. destruct (max_from_greatest first rest m Hm) as [Hin Hmax]. split.
  - apply elem_of_elements. by rewrite Hs.
  - intros y Hy. apply (Hmax []); [intros z Hz; by apply elem_of_nil in Hz|].
    cbn [app]. rewrite <- Hs. by apply elem_of_elements.
Qed.

Lemma py_gt_antisym (a b : pyval) :
  py_gt a b = Ok false -> py_gt b a = Ok false -> a = b.
Proof.
  destruct a as [s|x], b as [t|y]; cbn [py_gt]; try done; intros [= Hab] [= Hba].
  - f_equal. apply String.compare_eq_iff.
    unfold String.ltb in *. rewrite (String.compare_antisym t s) in Hab.
    by destruct (String.compare s t).
  - f_equal. lia.
Qed.

Lemma same_type_trans (a b c : pyval) :
  same_type a b = true -> same_type b c = true -> same_type a c = true.
Proof. by destruct a, b, c. Qed.

Lemma same_type_sym (a b : pyval) : same_type a b = same_type b a.
Proof. by destruct a, b. Qed.

Lemma same_type_refl (a : pyval) : same_type a a = true.
Proof. by destruct a. Qed.

Lemma py_gt_same_type (a b : pyval) :
  (exists g, py_gt a b = Ok g) <-> same_type a b = true.
Proof.
  destruct a, b; cbn [py_gt same_type]; split; try done; try (by eexists);
    by intros [? ?].
Qed.

(** [max] returns normally exactly on items that are all of one type, and
    raises [TypeError] otherwise. *)
Lemma max_from_ok (best : pyval) (items : list pyval) :
  (exists m, max_from best items = Ok m)
  <-> Forall (fun x => same_type x best = true) items.
Proof.
  revert best. induction items as [|x items IH]; intros best; cbn [max_from].
  - split; [by constructor|by eexists].
  - split.
    + intros [m Hm]. destruct (py_gt x best) as [g|e] eqn:Hx; [|done].
      assert (Hxb : same_type x best = true) by (apply py_gt_same_type; by eexists).
      constructor; [done|]. destruct g.
      * assert (Hrest : Forall (fun y => same_type y x = true) items)
          by (apply IH; by eexists).
        eapply Forall_impl; [exact Hrest|]. intros y Hy.
        exact (same_type_trans y x best Hy Hxb).
      * apply IH. by eexists.
    + intros Hall. inversion Hall as [|? ? Hxb Hrest]; subst.
      apply py_gt_same_type in Hxb as [g Hg]. rewrite Hg. destruct g.
      * apply IH. eapply Forall_impl; [exact Hrest|]. intros y Hy.
        eapply same_type_trans; [exact Hy|]. rewrite same_type_sym.
        apply py_gt_same_type. by eexists.
      * by apply IH.
Qed.

Lemma max_from_raises (best : pyval) (items : list pyval) (e : exn) :
  max_from best items = Raise e -> e = TypeError.
Proof.
  revert best. induction items as [|x items IH]; intros best; cbn [max_from]; [done|].
  destruct (py_gt x best) as [[|]|e'] eqn:Hx; [by apply IH|by apply IH|].
  intros [= <-]. destruct x, best; cbn [py_gt] in Hx; congruence.
Qed.

(** The order in which [max] meets the items does not matter. *)
Lemma max_from_permutation (best best' : pyval) (items items' : list pyval) :
  Permutation (best :: items) (best' :: items') ->
  max_from best items = max_from best' items'.
Proof.
  intros Hperm.
  assert (Hboth : forall b l b' l' m,
             Permutation (b :: l) (b' :: l') -> max_from b l = Ok m ->
             exists m', max_from b' l' = Ok m').
  { intros b l b' l' m Hp Hm.
    assert (Hall : Forall (fun x => same_type x b = true) (b :: l)).
    { constructor; [apply same_type_refl|]. apply max_from_ok. by eexists. }
    rewrite Hp in Hall. inversion Hall as [|? ? Hb' Hl']; subst.
    apply max_from_ok. eapply Forall_impl; [exact Hl'|]. intros y Hy.
    eapply same_type_trans; [exact Hy|]. by rewrite same_type_sym. }
  destruct (max_from best items) as [m|e] eqn:Hm.
  - destruct (Hboth _ _ _ _ _ Hperm Hm) as [m' Hm']. rewrite Hm'. f_equal.
    destruct (max_from_greatest _ _ _ Hm) as [Hin Hmax].
    destruct (max_from_greatest _ _ _ Hm') as [Hin' Hmax'].
    apply py_gt_antisym.
    + apply (Hmax' []); [intros z Hz; by apply elem_of_nil in Hz|].
      cbn [app]. by rewrite <- Hperm.
    + apply (Hmax []); [intros z Hz; by apply elem_of_nil in Hz|].
      cbn [app]. by rewrite Hperm.
  - destruct (max_from best' items') as [m'|e'] eqn:Hm'.
    + symmetry in Hperm. destruct (Hboth _ _ _ _ _ Hperm Hm') as [m Hm2]. congruence.
    + apply max_from_raises in Hm as ->. by apply max_from_raises in Hm' as ->.
Qed.









(** ** The whole run *)

Lemma bind_logs_ok {A B} (m : M A) (k : A -> M B) (a : A) (evs : list event) (w : world) :
  logs m (Ok a) evs ->
  bind m k w = k a {| log := (log w ++ evs)%list; files := files w |}.
Proof. intros Hm. unfold bind. by rewrite Hm. Qed.

Lemma bind_logs_raise {A B} (m : M A) (k : A -> M B) (e : exn) (evs : list event)
    (w : world) :
  logs m (Raise e) evs ->
  bind m k w = (Raise e, {| log := (log w ++ evs)%list; files := files w |}).
Proof. intros Hm. unfold bind. by rewrite Hm. Qed.

Lemma truthy_publications (a : author_record) (papers : list paper) :
  publications a = Some papers -> truthy a = true.
Proof. unfold truthy. intros ->. by destruct (name a), (affiliation a). Qed.

Lemma get_scholar_profile_logs (scholarly : source) (scholar_id : string)
    (a profile : author_record) :
  search_author_id scholarly scholar_id = Ok (Some a) ->
  truthy a = true ->
  fill scholarly a = Ok profile ->
  logs (get_scholar_profile scholarly scholar_id) (Ok (Some profile))
       [CallSearchAuthorId scholar_id; CallFill a].
Proof.
  intros Hsearch Htruthy Hfill. unfold get_scholar_profile. rewrite Hsearch.
  change [CallSearchAuthorId scholar_id; CallFill a]
    with ([CallSearchAuthorId scholar_id] ++ ([] ++ ([CallFill a] ++ ([] ++ []))))%list.
  eapply logs_bind; [apply logs_emit|].
  eapply logs_bind; [apply logs_lift|]. cbv beta iota. rewrite Htruthy.
  eapply logs_bind; [apply logs_emit|]. rewrite Hfill.
  eapply logs_bind; [apply logs_lift|]. apply logs_ret.
Qed.

(** With a profile found, the run either stops with the exception of the
    extraction stage, the files untouched, or goes on to export the batch
    results for the extracted mapping. *)
Lemma main_with_profile (int_of_str : string -> option Z) (scholarly : source)
    (open_error : string -> option exn)
    (now_year : Z) (args : arguments) (a profile : author_record) (w : world) :
  search_author_id scholarly (scholar_id args) = Ok (Some a) ->
  truthy a = true ->
  fill scholarly a = Ok profile ->
  truthy profile = true ->
  exists evs,
    main int_of_str scholarly open_error now_year args w =
      match extracted int_of_str scholarly now_year (now_year - years_back args) profile with
      | Raise e => (Raise e, {| log := (log w ++ evs)%list; files := files w |})
      | Ok d =>
          save_coa_tsv open_error (List.map (recorded scholarly) d) (output args)
            {| log := (log w ++ evs)%list; files := files w |}
      end.
Proof.
  intros Hsearch Ha Hfill Hprofile. unfold main, extracted.
  rewrite (bind_logs_ok _ _ tt [Print (MsgRetrieving (scholar_id args))])
    by apply logs_emit.
  rewrite (bind_logs_ok _ _ _ _ _
             (get_scholar_profile_logs _ _ _ _ Hsearch Ha Hfill)).
  rewrite Hprofile. cbv zeta.
  rewrite (bind_logs_ok _ _ tt [Print (MsgProfileFound (name profile))])
    by apply logs_emit.
  rewrite (bind_logs_ok _ _ tt
             [Print (MsgExtracting (now_year - years_back args))])
    by apply logs_emit.
  cbn [log files]. rewrite <- !app_assoc.
  destruct (publications profile) as [papers|]; cbn [item].
  - rewrite (bind_logs_ok _ _ papers []) by apply logs_lift.
    destruct (get_unique_coauthors_logs int_of_str scholarly (name profile)
                now_year papers (now_year - years_back args)) as (evs1 & Hextract).
    destruct (filtered_papers int_of_str now_year (now_year - years_back args) papers)
      as [filtered|e].
    + destruct (filled_bibs scholarly filtered) as [bibs|e].
      * rewrite (bind_logs_ok _ _ _ _ _ Hextract).
        rewrite (bind_logs_ok _ _ tt [Print MsgValidatingAffiliations])
          by apply logs_emit.
        destruct (get_validated_affiliations_logs scholarly
                    (List.map renamed (record_papers (name profile) bibs [])))
          as (evs2 & Hbatch & _).
        { unfold PyDict.wf. rewrite keys_renamed.
          assert (Hinj : Inj (=) (=) reordered_name)
            by (intros x y; apply reordered_name_inj).
          apply (NoDup_fmap_2 reordered_name).
          apply (wf_record_papers (name profile) bibs []). apply NoDup_nil_2. }
        rewrite (bind_logs_ok _ _ _ _ _ Hbatch).
        cbn [log files]. rewrite <- !app_assoc. by eexists.
      * rewrite (bind_logs_raise _ _ _ _ _ Hextract).
        cbn [log files]. rewrite <- !app_assoc. by eexists.
    + rewrite (bind_logs_raise _ _ _ _ _ Hextract).
      cbn [log files]. rewrite <- !app_assoc. by eexists.
  - rewrite (bind_logs_raise _ _ (KeyError "publications") []) by apply logs_lift.
    cbn [log files]. rewrite <- !app_assoc. by eexists.
Qed.

(** C10.  When the (non-empty) profile's publication list holds a publication
    whose [pub_year] is present but no integer literal, the year filter raises
    [ValueError] and the run ends with that exception, no file written or
    changed.  A publication without [pub_year] does not make the filter
    raise: on a list whose listed years all parse the filter returns, and a
    publication without a year is kept exactly when the current year reaches
    the cutoff. *)
Theorem unparseable_year_aborts (int_of_str : string -> option Z) (scholarly : source)
    (open_error : string -> option exn)
    (now_year : Z) (args : arguments) (a profile : author_record)
    (papers : list paper) (p : paper) (v : pyval) (e : exn) (w : world) :
  search_author_id scholarly (scholar_id args) = Ok (Some a) ->
  truthy a = true ->
  fill scholarly a = Ok profile ->
  publications profile = Some papers ->
  p ∈ papers -> stated_year p = Some v -> py_int int_of_str v = Raise e ->
  (exists bad w',
     filtered_papers int_of_str now_year (now_year - years_back args) papers
       = Raise (ValueError bad)
     /\ main int_of_str scholarly open_error now_year args w
        = (Raise (ValueError bad), w')
     /\ files w' = files w)
  /\ (forall others year_cutoff,
        years_parse int_of_str others ->
        exists kept,
          filtered_papers int_of_str now_year year_cutoff others = Ok kept
          /\ forall q, q ∈ others -> stated_year q = None ->
                       (q ∈ kept <-> year_cutoff <= now_year)).
Proof.
  intros Hsearch Ha Hfill Hpubs Hin Hyear Hbad. split.
  - destruct (filtered_papers_raises int_of_str now_year (now_year - years_back args)
                papers p v e Hin Hyear Hbad) as [bad Hraise].
    destruct (main_with_profile int_of_str scholarly open_error now_year args a profile w
                Hsearch Ha Hfill (truthy_publications _ _ Hpubs)) as (evs & Hmain).
    unfold extracted in Hmain. rewrite Hpubs in Hmain. cbn [item] in Hmain.
    rewrite Hraise in Hmain.
    exists bad. eexists. split; [done|]. split; [exact Hmain|done].
  - intros others year_cutoff Hparse. eexists. split.
    + by apply filtered_papers_filter.
    + intros q Hq Hnone. rewrite list_elem_of_In, filter_In, <- list_elem_of_In.
      unfold kept_by_filter. rewrite Hnone. rewrite Z.leb_le. tauto.
Qed.

Lemma unparseable_year_aborts_witness :
  exists bad w',
    filtered_papers decimal 2024 (2024 - 4)
      [mk_paper (Some (VStr "2023")) (Some "A B and C D");
       mk_paper (Some (VStr "n.d.")) (Some "A B and E F")]
      = Raise (ValueError bad)
    /\ main decimal (source_with_profile undated_profile) always_writable 2024
         default_arguments fresh_world
       = (Raise (ValueError bad), w')
    /\ files w' = files fresh_world.
Proof.
  refine (proj1 (unparseable_year_aborts decimal (source_with_profile undated_profile)
                   always_writable
                   2024 default_arguments undated_profile undated_profile
                   [mk_paper (Some (VStr "2023")) (Some "A B and C D");
                    mk_paper (Some (VStr "n.d.")) (Some "A B and E F")]
                   (mk_paper (Some (VStr "n.d.")) (Some "A B and E F"))
                   (VStr "n.d.") (ValueError (VStr "n.d.")) fresh_world
                   eq_refl eq_refl eq_refl eq_refl _ eq_refl eq_refl)).
  right. by left.
Defined.

(** C6, as the code has it.  In the file a successful run for a non-empty
    profile exports, every line holds the cleaned-up form of an author entry that differs from the
    subject's name string, so no line holds the cleaned-up form of the
    subject's name.  A line can hold the subject's name string itself only
    when that string has the shape "T, P" that the clean-up gives to the
    different entry "P T". *)
Theorem subject_entries_never_exported (int_of_str : string -> option Z)
    (scholarly : source) (open_error : string -> option exn)
    (now_year : Z) (args : arguments)
    (a profile : author_record) (w w' : world) :
  search_author_id scholarly (scholar_id args) = Ok (Some a) ->
  truthy a = true ->
  fill scholarly a = Ok profile ->
  truthy profile = true ->
  main int_of_str scholarly open_error now_year args w = (Ok tt, w') ->
  exists rows,
    files w' !! output args = Some rows
    /\ forall row, row ∈ rows ->
         exists raw affiliation pub_date,
           fields row = [VStr "A:"; VStr (reordered_name raw); VStr affiliation;
                         VStr EmptyString; pub_date]
           /\ Some raw <> name profile
           /\ forall n, name profile = Some n ->
                reordered_name raw <> reordered_name n
                /\ (reordered_name raw = n ->
                    exists t p, PyStr.lacks " " t /\ n = t ++ ", " ++ p
                                /\ raw = p ++ " " ++ t).
Proof.
  intros Hsearch Ha Hfill Hprofile Hmain.
  destruct (main_with_profile int_of_str scholarly open_error now_year args a profile w
              Hsearch Ha Hfill Hprofile) as (evs & Hrun).
  rewrite Hmain in Hrun. unfold extracted in Hrun.
  destruct (item "publications" (publications profile)) as [papers|]; [|done].
  destruct (filtered_papers _ _ _ papers) as [filtered|]; [|done].
  destruct (filled_bibs scholarly filtered) as [bibs|]; [|done].
  set (u := record_papers (name profile) bibs []) in *.
  destruct (open_error (output args)) as [e|] eqn:Hopen.
  { by rewrite (save_coa_tsv_unwritable _ _ _ _ e Hopen) in Hrun. }
  destruct (save_coa_tsv_rows_at open_error
              (List.map (recorded scholarly) (List.map renamed u))
              (output args) {| log := (log w ++ evs)%list; files := files w |} Hopen)
    as (w'' & Hsave & Hfile).
  rewrite Hsave in Hrun. injection Hrun as ->.
  eexists. split; [exact Hfile|].
  intros row Hrow.
  apply list_elem_of_fmap in Hrow as ([k [aff date]] & -> & Hentry).
  apply list_elem_of_fmap in Hentry as ([k' ys] & Heq & Hentry).
  apply list_elem_of_fmap in Hentry as ([raw ys'] & [= -> ->] & Hentry).
  unfold recorded, renamed in Heq. cbn [fst snd] in Heq. injection Heq as -> Hfound.
  assert (Hget : PyDict.get raw u = Some ys').
  { apply elem_get_Some; [|done]. apply wf_record_papers. apply NoDup_nil_2. }
  subst u. rewrite get_record_papers in Hget. cbn [PyDict.get] in Hget.
  assert (Hother : Some raw <> name profile).
  { intros Hme. rewrite decide_True in Hget by done.
    by rewrite add_years_empty in Hget. }
  exists raw, aff, date. split; [reflexivity|]. split; [exact Hother|].
  intros n Hn. assert (Hne : raw <> n) by (intros ->; by apply Hother).
  split.
  - intros Heq. by apply Hne, reordered_name_inj.
  - intros Heq.
    destruct (reordered_name_cases raw) as [[_ Hsame]|(p & t & Hraw & Ht & Hshape)].
    + congruence.
    + exists t, p. split; [done|]. split; [congruence|done].
Qed.

Lemma subject_entries_never_exported_witness :
  exists rows,
    files (snd (main decimal (source_with_profile two_paper_profile) always_writable
                  2024 default_arguments fresh_world)) !! "NSF_COA.tsv" = Some rows
    /\ forall row, row ∈ rows ->
         exists raw affiliation pub_date,
           fields row = [VStr "A:"; VStr (reordered_name raw); VStr affiliation;
                         VStr EmptyString; pub_date]
           /\ Some raw <> Some "A B"
           /\ forall n, Some "A B" = Some n ->
                reordered_name raw <> reordered_name n
                /\ (reordered_name raw = n ->
                    exists t p, PyStr.lacks " " t /\ n = t ++ ", " ++ p
                                /\ raw = p ++ " " ++ t).
Proof.
  apply (subject_entries_never_exported decimal (source_with_profile two_paper_profile)
           always_writable
           2024 default_arguments two_paper_profile two_paper_profile fresh_world
           (snd (main decimal (source_with_profile two_paper_profile) always_writable
                   2024 default_arguments fresh_world))
           eq_refl eq_refl eq_refl eq_refl).
  vm_compute. reflexivity.
Defined.

(** A subject whose profile name is written "Public, Jane" and who appears
    in an author field as "Jane Public": the run succeeds and the first line
    of the export holds the subject's name string. *)
Lemma subject_name_exported :
  name surname_first_profile = Some "Public, Jane"
  /\ fst (main decimal (source_with_profile surname_first_profile) always_writable
            2024 default_arguments fresh_world) = Ok tt
  /\ files (snd (main decimal (source_with_profile surname_first_profile) always_writable
                   2024 default_arguments fresh_world)) !! "NSF_COA.tsv"
     = Some [{| delimiter := tab;
                fields := [VStr "A:"; VStr "Public, Jane"; VStr "Unknown Institution";
                           VStr EmptyString; VStr "2023"] |};
             {| delimiter := tab;
                fields := [VStr "A:"; VStr "Smith, Bob"; VStr "Unknown Institution";
                           VStr EmptyString; VStr "2023"] |}].
Proof. split; [reflexivity|]. split; vm_compute; reflexivity. Qed.

(** * Further properties of the code *)

(** ** Name clean-up on arbitrary strings *)

Lemma split_space_snoc (p t : string) :
  PyStr.lacks " " t ->
  PyStr.split " " (p ++ " " ++ t) = (PyStr.split " " p ++ [t])%list.
Proof.
  intros Ht. induction p as [|c p IH].
  - change (EmptyString ++ " " ++ t) with (String " " t).
    rewrite split_space_cons, decide_True by done.
    by rewrite split_space_of_lacks.
  - change (String c p ++ " " ++ t) with (String c (p ++ " " ++ t)).
    rewrite !split_space_cons, IH.
    pose proof (split_space_nonempty p) as Hne.
    case_decide; [done|]. by destruct (PyStr.split " " p).
Qed.

(** X1.  The clean-up cuts a name at its last space, whatever stands before
    it: for every string [p] and every space-free [t], the name [p t] becomes
    [t, p], with [p] unchanged (inner runs of spaces included).  In
    particular a name that ends in a space is turned into a comma, a space
    and the name without its last space. *)
Theorem cleanup_cuts_at_last_space (p t : string) :
  PyStr.lacks " " t ->
  _nsf_name_cleanup [p ++ " " ++ t] = [t ++ ", " ++ p]
  /\ _nsf_name_cleanup [p ++ " "] = [", " ++ p].
Proof.
  assert (Hcut : forall q u, PyStr.lacks " " u ->
                             reordered_name (q ++ " " ++ u) = u ++ ", " ++ q).
  { intros q u Hu. unfold reordered_name. cbv zeta.
    rewrite split_space_snoc by done.
    pose proof (split_space_nonempty q) as Hne.
    assert (Hlen : (1 <? length (PyStr.split " " q ++ [u])%list)%nat = true).
    { apply Nat.ltb_lt. rewrite length_app. cbn [length].
      destruct (PyStr.split " " q); [done|cbn [length]; lia]. }
    rewrite Hlen. unfold PyStr.last_part, PyStr.but_last.
    by rewrite last_last, removelast_last, join_split_space. }
  intros Ht. unfold _nsf_name_cleanup. cbn [List.map]. split.
  - by rewrite Hcut.
  - change (p ++ " ") with (p ++ " " ++ EmptyString). by rewrite Hcut.
Qed.

Lemma cleanup_cuts_at_last_space_witness :
  _nsf_name_cleanup ["Jane  Q" ++ " " ++ "Public"] = ["Public" ++ ", " ++ "Jane  Q"]
  /\ _nsf_name_cleanup ["Jane  Q" ++ " "] = [", " ++ "Jane  Q"].
Proof.
  apply (cleanup_cuts_at_last_space "Jane  Q" "Public").
  repeat constructor; discriminate.
Defined.

(** X2.  The clean-up loses nothing: two lists of names with the same
    cleaned-up list are the same list, so distinct names never collide
    after the clean-up. *)
Theorem nsf_name_cleanup_injective (names1 names2 : list string) :
  _nsf_name_cleanup names1 = _nsf_name_cleanup names2 -> names1 = names2.
Proof.
  unfold _nsf_name_cleanup. revert names2.
  induction names1 as [|n1 names1 IH]; intros [|n2 names2]; cbn [List.map]; try done.
  intros [= Hhead Htail]. f_equal.
  - by apply reordered_name_inj.
  - by apply IH.
Qed.

Lemma nsf_name_cleanup_injective_witness :
  ["Jane Q Public"; "Madonna"] = ["Jane Q Public"; "Madonna"].
Proof.
  apply (nsf_name_cleanup_injective ["Jane Q Public"; "Madonna"]
           ["Jane Q Public"; "Madonna"]).
  reflexivity.
Defined.

(** ** The run as a whole *)


Lemma filled_bibs_raises (scholarly : source) (papers : list paper) (p : paper) :
  p ∈ papers ->
  (exists e, fill_bib scholarly p = Raise e)
  \/ (exists paper_full, fill_bib scholarly p = Ok paper_full /\ bib paper_full = None) ->
  exists e, filled_bibs scholarly papers = Raise e.
Proof.
  intros Hin Hbad. induction papers as [|q papers IH].
  - by apply elem_of_nil in Hin.
  - cbn [filled_bibs].
    destruct (fill_bib scholarly q) as [paper_full|e] eqn:Hq; [|by eexists].
    destruct (bib paper_full) as [b|] eqn:Hb; cbn [item]; [|by eexists].
    apply elem_of_cons in Hin as [->|Hin].
    + destruct Hbad as [[e He]|(pf & Hpf & Hnone)]; congruence.
    + destruct (IH Hin) as [e ->]. by eexists.
Qed.

(** X3.  When the identifier search finds no author, nothing is filled and
    no file is written: the run reports "No profile found" and returns
    normally, and the whole log is the opening message, the one search and
    that report.  When the identifier search itself raises, the run ends
    with that exception, again with no file written. *)
Theorem no_profile_writes_nothing (int_of_str : string -> option Z) (scholarly : source)
    (open_error : string -> option exn)
    (now_year : Z) (args : arguments) (w : world) :
  (search_author_id scholarly (scholar_id args) = Ok None ->
   main int_of_str scholarly open_error now_year args w =
     (Ok tt,
      {| log := (log w ++ [Print (MsgRetrieving (scholar_id args));
                           CallSearchAuthorId (scholar_id args);
                           Print MsgNoProfile])%list;
         files := files w |}))
  /\ (forall e,
        search_author_id scholarly (scholar_id args) = Raise e ->
        main int_of_str scholarly open_error now_year args w =
          (Raise e,
           {| log := (log w ++ [Print (MsgRetrieving (scholar_id args));
                                CallSearchAuthorId (scholar_id args)])%list;
              files := files w |})).
Proof.
  split.
  - intros Hnone. unfold main, get_scholar_profile, bind, print, emit, lift, ret.
    rewrite Hnone. cbn [log files]. by rewrite <- !app_assoc.
  - intros e Hraise. unfold main, get_scholar_profile, bind, print, emit, lift.
    rewrite Hraise. cbn [log files]. by rewrite <- !app_assoc.
Qed.

Lemma no_profile_writes_nothing_witness :
  main decimal quiet_source always_writable 2024 default_arguments fresh_world =
    (Ok tt,
     {| log := [Print (MsgRetrieving "3HU8c9EAAAAJ");
                CallSearchAuthorId "3HU8c9EAAAAJ";
                Print MsgNoProfile];
        files := ∅ |}).
Proof.
  exact (proj1 (no_profile_writes_nothing decimal quiet_source always_writable 2024
                  default_arguments fresh_world) eq_refl).
Defined.

(** X4.  Errors of the extraction stage are not caught.  With a non-empty
    author record found and a non-empty profile filled from it (both pass the
    truthiness tests of lines 14 and 116), a retained publication whose
    [fill] raises, or whose filled record has no [bib], ends the run with an
    exception before any file is written or changed; so does such a profile
    that has other keys but no publication list. *)
Theorem extraction_errors_abort (int_of_str : string -> option Z) (scholarly : source)
    (open_error : string -> option exn)
    (now_year : Z) (args : arguments) (a profile : author_record) (w : world) :
  search_author_id scholarly (scholar_id args) = Ok (Some a) ->
  truthy a = true ->
  fill scholarly a = Ok profile ->
  truthy profile = true ->
  (publications profile = None ->
   exists w', main int_of_str scholarly open_error now_year args w
                = (Raise (KeyError "publications"), w')
              /\ files w' = files w)
  /\ (forall papers filtered p,
        publications profile = Some papers ->
        filtered_papers int_of_str now_year (now_year - years_back args) papers
          = Ok filtered ->
        p ∈ filtered ->
        (exists e, fill_bib scholarly p = Raise e)
        \/ (exists paper_full,
              fill_bib scholarly p = Ok paper_full /\ bib paper_full = None) ->
        exists e w', main int_of_str scholarly open_error now_year args w = (Raise e, w')
                     /\ files w' = files w).
Proof.
  intros Hsearch Ha Hfill Hprofile.
  destruct (main_with_profile int_of_str scholarly open_error now_year args a profile w
              Hsearch Ha Hfill Hprofile) as (evs & Hmain).
  unfold extracted in Hmain. split.
  - intros Hnone. rewrite Hnone in Hmain. cbn [item] in Hmain.
    eexists. split; [exact Hmain|done].
  - intros papers filtered p Hpubs Hfiltered Hin Hbad.
    rewrite Hpubs in Hmain. cbn [item] in Hmain. rewrite Hfiltered in Hmain.
    destruct (filled_bibs_raises scholarly filtered p Hin Hbad) as [e He].
    rewrite He in Hmain. eexists _, _. split; [exact Hmain|done].
Qed.

Lemma extraction_errors_abort_witness :
  exists e w',
    main decimal (bib_failing_source two_paper_profile) always_writable 2024
      default_arguments fresh_world
      = (Raise e, w')
    /\ files w' = files fresh_world.
Proof.
  refine (proj2 (extraction_errors_abort decimal (bib_failing_source two_paper_profile)
                   always_writable
                   2024 default_arguments two_paper_profile two_paper_profile
                   fresh_world eq_refl eq_refl eq_refl eq_refl)
            [mk_paper (Some (VStr "2023")) (Some "A B and C D");
             mk_paper (Some (VStr "2020")) (Some "A B")]
            [mk_paper (Some (VStr "2023")) (Some "A B and C D");
             mk_paper (Some (VStr "2020")) (Some "A B")]
            (mk_paper (Some (VStr "2023")) (Some "A B and C D"))
            eq_refl eq_refl _ _).
  - by left.
  - left. by eexists.
Defined.



(** ** Lookups: which candidate is taken, and when none can be *)

Lemma py_max_mixed (s : year_set) (str : string) (z : Z) :
  VStr str ∈ s -> VInt z ∈ s -> py_max s = Raise TypeError.
Proof.
  intros Hstr Hint. unfold py_max.
  destruct (elements s) as [|first rest] eqn:Hs.
  - apply elem_of_elements in Hstr. rewrite Hs in Hstr. by apply elem_of_nil in Hstr.
  - destruct (max_from first rest) as [m|e] eqn:Hm.
    + exfalso.
      assert (Hall : Forall (fun x => same_type x first = true) (first :: rest)).
      { constructor; [apply same_type_refl|]. apply max_from_ok. by eexists. }
      rewrite <- Hs in Hall. rewrite Forall_forall in Hall.
      pose proof (Hall _ (proj2 (elem_of_elements _ _) Hstr)) as H1.
      pose proof (Hall _ (proj2 (elem_of_elements _ _) Hint)) as H2.
      by destruct first.
    + by apply max_from_raises in Hm as ->.
Qed.

Lemma lookup_max_raises (scholarly : source) (coauthor : string)
    (pub_years : year_set) (e : exn) :
  pub_years <> ∅ -> py_max pub_years = Raise e ->
  logs (lookup scholarly coauthor pub_years) (Raise e) [CallSearchAuthor coauthor].
Proof.
  intros Hne Hmax. unfold lookup. cbv zeta.
  rewrite decide_False by done. rewrite Hmax.
  change [CallSearchAuthor coauthor] with ([CallSearchAuthor coauthor] ++ [])%list.
  eapply logs_bind; [apply logs_emit|]. apply logs_bind_raise, logs_lift.
Qed.

(** X6.  The candidate loop takes the first candidate that fills, has a
    publication of one of the recorded years and carries an affiliation other
    than "Unknown Institution": its affiliation is returned with the latest
    year, the candidates after it are never filled, and an error the search
    would have raised after them is never met. *)
Theorem first_accepted_candidate_wins (scholarly : source) (coauthor : string)
    (pub_years : year_set) (before after : list author_record)
    (candidate filled : author_record) (latest : pyval) (w : world) :
  yielded (search_author scholarly coauthor) = (before ++ candidate :: after)%list ->
  (forall b, b ∈ before ->
             exists fb, fill scholarly b = Ok fb /\ ~ accepted pub_years fb) ->
  fill scholarly candidate = Ok filled ->
  accepted pub_years filled ->
  py_max pub_years = Ok latest ->
  lookup scholarly coauthor pub_years w =
    (Ok (default "Unknown Institution" (affiliation filled), latest),
     {| log := (log w ++ CallSearchAuthor coauthor
                         :: List.map CallFill (before ++ [candidate]))%list;
        files := files w |}).
Proof.
  intros Hyielded Hbefore Hfill Haccepted Hmax.
  assert (Hne : pub_years <> ∅).
  { destruct Haccepted as [(pub & _ & Hyear) _]. set_solver. }
  pose proof (check_candidates_first_accepted scholarly pub_years before after
                candidate filled (failure (search_author scholarly coauthor))
                Hbefore Hfill Haccepted) as Hloop.
  unfold lookup. cbv zeta. rewrite decide_False by done. rewrite Hmax, Hyielded.
  rewrite (bind_logs_ok _ _ tt [CallSearchAuthor coauthor]) by apply logs_emit.
  rewrite (bind_logs_ok _ _ latest []) by apply logs_lift.
  rewrite (bind_logs_ok _ _ _ _ _ Hloop).
  unfold ret. cbn [log files]. rewrite app_nil_r, <- app_assoc. reflexivity.
Qed.

Lemma first_accepted_candidate_wins_witness :
  lookup two_candidate_source "D, C" {[VStr "2023"]} fresh_world =
    (Ok ("Example University", VStr "2023"),
     {| log := [CallSearchAuthor "D, C";
                CallFill candidate_without_affiliation;
                CallFill candidate_with_affiliation];
        files := ∅ |}).
Proof.
  apply (first_accepted_candidate_wins two_candidate_source "D, C" {[VStr "2023"]}
           [candidate_without_affiliation] [] candidate_with_affiliation
           candidate_with_affiliation (VStr "2023") fresh_world).
  - reflexivity.
  - intros b Hb. apply list_elem_of_singleton in Hb as ->.
    exists candidate_without_affiliation. split; [reflexivity|].
    intros [_ Haff]. by apply Haff.
  - reflexivity.
  - split.
    + eexists. split; [by left|]. vm_compute. set_solver.
    + discriminate.
  - vm_compute. reflexivity.
Defined.

(** X7.  A year-set that holds a string year next to an integer year cannot
    be ordered: [max] raises [TypeError] before any candidate is looked at,
    the error is printed, and the co-author is stored with the placeholder
    pair although its years are known. *)
Theorem mixed_year_types_give_placeholder (scholarly : source)
    (coauthors_with_years : dict year_set) (w : world)
    (coauthor : string) (pub_years : year_set) (str : string) (z : Z) :
  PyDict.wf coauthors_with_years ->
  PyDict.get coauthor coauthors_with_years = Some pub_years ->
  VStr str ∈ pub_years -> VInt z ∈ pub_years ->
  lookup scholarly coauthor pub_years w =
    (Raise TypeError,
     {| log := (log w ++ [CallSearchAuthor coauthor])%list; files := files w |})
  /\ exists r w',
       _get_validated_affiliations scholarly coauthors_with_years w = (Ok r, w')
       /\ PyDict.get coauthor r = Some ("Unknown Institution", VStr "Unknown")
       /\ Print (MsgError coauthor TypeError) ∈ log w'.
Proof.
  intros Hwf Hget Hstr Hint.
  assert (Hne : pub_years <> ∅) by set_solver.
  pose proof (lookup_max_raises scholarly coauthor pub_years TypeError Hne
                (py_max_mixed pub_years str z Hstr Hint)) as Hlookup.
  split; [apply Hlookup|].
  destruct (get_validated_affiliations_logs scholarly coauthors_with_years Hwf)
    as (evs & Hrun & Hlog).
  eexists _, _. split; [apply Hrun|]. split.
  - rewrite (get_recorded _ _ _ pub_years) by done.
    rewrite (recorded_raise _ _ _ w TypeError); [done|].
    by apply (logs_outcome _ _ _ w Hlookup).
  - cbn [log]. apply elem_of_app. right.
    apply (Hlog coauthor pub_years TypeError w); [by apply get_Some_elem|].
    by apply (logs_outcome _ _ _ w Hlookup).
Qed.

Lemma mixed_year_types_give_placeholder_witness :
  exists r w',
    _get_validated_affiliations two_candidate_source
      [("D, C", {[VStr "2023"; VInt 2021]})] fresh_world = (Ok r, w')
    /\ PyDict.get "D, C" r = Some ("Unknown Institution", VStr "Unknown")
    /\ Print (MsgError "D, C" TypeError) ∈ log w'.
Proof.
  refine (proj2 (mixed_year_types_give_placeholder two_candidate_source
                   [("D, C", {[VStr "2023"; VInt 2021]})] fresh_world
                   "D, C" {[VStr "2023"; VInt 2021]} "2023" 2021 _ eq_refl _ _)).
  - apply NoDup_singleton.
  - clear. set_solver.
  - clear. set_solver.
Defined.

(** X8.  Years are compared as Python values, not as numbers: when every
    recorded year of a co-author is an integer and every year the candidates'
    publications list is a string, no candidate validates, and a lookup that
    returns normally returns "Unknown Institution", equal digits or not. *)
Theorem integer_years_never_match_strings (scholarly : source) (coauthor : string)
    (pub_years : year_set) (w : world) (validated : string) (latest : pyval) :
  (forall y, y ∈ pub_years -> exists z, y = VInt z) ->
  (forall c filled pub v,
     c ∈ yielded (search_author scholarly coauthor) ->
     fill scholarly c = Ok filled ->
     pub ∈ default [] (publications filled) ->
     stated_year pub = Some v -> exists s, v = VStr s) ->
  outcome (lookup scholarly coauthor pub_years) w = Ok (validated, latest) ->
  validated = "Unknown Institution".
Proof.
  intros Hints Hstrings Hok.
  eapply lookup_no_match; [|exact Hok].
  intros c Hc (filled & pub & Hfill & Hpub & Hyear).
  destruct (Hints _ Hyear) as [z Hz].
  unfold candidate_pub_year in Hz.
  pose proof (Hstrings c filled pub) as Hs. unfold stated_year in Hs.
  destruct (bib pub) as [b|]; [|done].
  destruct (pub_year b) as [v|]; [|done].
  destruct (Hs v Hc Hfill Hpub eq_refl) as [s ->]. done.
Qed.

Lemma integer_years_never_match_strings_witness :
  "Unknown Institution" = "Unknown Institution".
Proof.
  apply (integer_years_never_match_strings two_candidate_source "D, C" {[VInt 2023]}
           fresh_world "Unknown Institution" (VInt 2023)).
  - intros y Hy. apply elem_of_singleton in Hy as ->. by eexists.
  - intros c filled pub v Hc [= <-] Hpub Hyear.
    cbn in Hc.
    apply elem_of_cons in Hc as [->|Hc];
      [|apply list_elem_of_singleton in Hc as ->];
      cbn in Hpub; apply list_elem_of_singleton in Hpub as ->;
      cbn in Hyear; injection Hyear as <-; by eexists.
  - vm_compute. reflexivity.
Defined.

(** ** What the extraction stage asks of the source *)

Lemma extract_loop_fills (scholarly : source) (my_name : option string)
    (papers : list paper) (bibs : list bib_entry) (u : dict year_set) :
  filled_bibs scholarly papers = Ok bibs ->
  logs (extract_loop scholarly my_name papers u)
       (Ok (record_papers my_name bibs u)) (List.map CallFillBib papers).
Proof.
  revert bibs u. induction papers as [|p papers IH]; intros bibs u.
  - cbn [filled_bibs]. intros [= <-]. apply logs_ret.
  - cbn [filled_bibs extract_loop List.map].
    destruct (fill_bib scholarly p) as [paper_full|e] eqn:Hp; [|done].
    destruct (bib paper_full) as [b|] eqn:Hb; cbn [item]; [|done].
    destruct (filled_bibs scholarly papers) as [bs|e] eqn:Hrest; [|done].
    intros [= <-].
    change (CallFillBib p :: List.map CallFillBib papers)
      with ([CallFillBib p] ++ ([] ++ ([] ++ List.map CallFillBib papers)))%list.
    eapply logs_bind; [apply logs_emit|].
    eapply logs_bind; [apply logs_lift|]. cbv beta. rewrite Hb. cbn [item].
    eapply logs_bind; [apply logs_lift|].
    exact (IH bs (record_paper my_name b u) eq_refl).
Qed.

(** X9.  The extraction stage fills exactly the publications the year filter
    retained, each once and in their order, after printing how many there
    are; it touches no file.  A publication the filter dropped is never
    filled, and when the filter raises nothing is printed or filled at all. *)
Theorem extraction_fills_retained_only (int_of_str : string -> option Z)
    (scholarly : source) (current_year : Z) (papers : list paper) (year_cutoff : Z)
    (my_name : option string) (w : world) :
  (forall filtered bibs,
     filtered_papers int_of_str current_year year_cutoff papers = Ok filtered ->
     filled_bibs scholarly filtered = Ok bibs ->
     _get_unique_coauthors int_of_str scholarly current_year papers year_cutoff my_name w
       = (Ok (List.map renamed (record_papers my_name bibs [])),
          {| log := (log w ++ Print (MsgProcessing (length filtered) year_cutoff)
                              :: List.map CallFillBib filtered)%list;
             files := files w |}))
  /\ (forall e,
        filtered_papers int_of_str current_year year_cutoff papers = Raise e ->
        _get_unique_coauthors int_of_str scholarly current_year papers year_cutoff my_name w
          = (Raise e, w)).
Proof.
  split.
  - intros filtered bibs Hfiltered Hbibs. unfold _get_unique_coauthors.
    rewrite Hfiltered.
    rewrite (bind_logs_ok _ _ filtered []) by apply logs_lift.
    rewrite (bind_logs_ok _ _ tt [Print (MsgProcessing (length filtered) year_cutoff)])
      by apply logs_emit.
    rewrite (bind_logs_ok _ _ _ _ _ (extract_loop_fills _ my_name _ _ [] Hbibs)).
    unfold ret. cbn [log files].
    rewrite rename_keys_renamed by (apply wf_record_papers, NoDup_nil_2).
    by rewrite app_nil_r, <- app_assoc.
  - intros e Hraise. unfold _get_unique_coauthors, bind, lift. by rewrite Hraise.
Qed.

Lemma extraction_fills_retained_only_witness :
  _get_unique_coauthors decimal quiet_source 2024
    [mk_paper (Some (VStr "2023")) (Some "A B and C D");
     mk_paper (Some (VStr "2019")) (Some "A B and E F")]
    2020 (Some "A B") fresh_world
  = (Ok (List.map renamed
           (record_papers (Some "A B")
              [{| title := None; pub_year := Some (VStr "2023");
                  author := Some "A B and C D" |}] [])),
     {| log := [Print (MsgProcessing 1 2020);
                CallFillBib (mk_paper (Some (VStr "2023")) (Some "A B and C D"))];
        files := ∅ |}).
Proof.
  exact (proj1 (extraction_fills_retained_only decimal quiet_source 2024
                  [mk_paper (Some (VStr "2023")) (Some "A B and C D");
                   mk_paper (Some (VStr "2019")) (Some "A B and E F")]
                  2020 (Some "A B") fresh_world)
           [mk_paper (Some (VStr "2023")) (Some "A B and C D")]
           [{| title := None; pub_year := Some (VStr "2023");
               author := Some "A B and C D" |}]
           eq_refl eq_refl).
Defined.

(** ** What the validation stage asks of the source *)

Lemma check_candidates_prefix (scholarly : source) (pub_years : year_set)
    (candidates : list author_record) (failure : option exn) (validated : string) :
  exists r filled_candidates,
    filled_candidates `prefix_of` candidates
    /\ logs (check_candidates scholarly pub_years candidates failure validated) r
            (List.map CallFill filled_candidates).
Proof.
  revert validated. induction candidates as [|c cs IH]; intros validated.
  - cbn [check_candidates]. destruct failure; eexists _, []; (split; [done|]).
    + apply logs_raise.
    + apply logs_ret.
  - cbn [check_candidates].
    destruct (fill scholarly c) as [filled|e] eqn:Hfill.
    + pose (v := check_publications pub_years
                   (default "Unknown Institution" (affiliation filled))
                   (default [] (publications filled)) validated).
      destruct (decide (v <> "Unknown Institution")) as [Hv|Hv].
      * exists (Ok v), [c]. split; [by apply prefix_cons, prefix_nil|].
        change (List.map CallFill [c]) with ([CallFill c] ++ ([] ++ []))%list.
        eapply logs_bind; [apply logs_emit|].
        eapply logs_bind; [apply logs_lift|]. cbv zeta. fold v.
        rewrite decide_True by done. apply logs_ret.
      * destruct (IH v) as (r & fc & Hprefix & Hrest).
        exists r, (c :: fc). split; [by apply prefix_cons|].
        change (List.map CallFill (c :: fc))
          with ([CallFill c] ++ ([] ++ List.map CallFill fc))%list.
        eapply logs_bind; [apply logs_emit|].
        eapply logs_bind; [apply logs_lift|]. cbv zeta. fold v.
        rewrite decide_False by done. apply Hrest.
    + exists (Raise e), [c]. split; [by apply prefix_cons, prefix_nil|].
      change (List.map CallFill [c]) with ([CallFill c] ++ [])%list.
      eapply logs_bind; [apply logs_emit|].
      apply logs_bind_raise. apply logs_lift.
Qed.

Lemma lookup_prefix (scholarly : source) (coauthor : string) (pub_years : year_set) :
  exists r filled_candidates,
    filled_candidates `prefix_of` yielded (search_author scholarly coauthor)
    /\ logs (lookup scholarly coauthor pub_years) r
            (CallSearchAuthor coauthor :: List.map CallFill filled_candidates).
Proof.
  unfold lookup. cbv zeta.
  destruct (if decide (pub_years = ∅) then Ok (VStr "Unknown") else py_max pub_years)
    as [latest|e] eqn:Hlatest.
  - destruct (check_candidates_prefix scholarly pub_years
                (yielded (search_author scholarly coauthor))
                (failure (search_author scholarly coauthor)) "Unknown Institution")
      as ([v|e] & fc & Hprefix & Hcs).
    + eexists _, fc. split; [done|].
      change (CallSearchAuthor coauthor :: List.map CallFill fc)
        with ([CallSearchAuthor coauthor] ++ ([] ++ (List.map CallFill fc)))%list.
      eapply logs_bind; [apply logs_emit|].
      eapply logs_bind; [apply logs_lift|].
      rewrite <- (app_nil_r (List.map CallFill fc)).
      eapply logs_bind; [apply Hcs|]. apply logs_ret.
    + eexists _, fc. split; [done|].
      change (CallSearchAuthor coauthor :: List.map CallFill fc)
        with ([CallSearchAuthor coauthor] ++ ([] ++ (List.map CallFill fc)))%list.
      eapply logs_bind; [apply logs_emit|].
      eapply logs_bind; [apply logs_lift|].
      apply logs_bind_raise, Hcs.
  - eexists _, []. split; [apply prefix_nil|].
    change (CallSearchAuthor coauthor :: List.map CallFill [])
      with ([CallSearchAuthor coauthor] ++ [])%list.
    eapply logs_bind; [apply logs_emit|].
    apply logs_bind_raise. apply logs_lift.
Qed.

(** X10.  One lookup issues one name search, for the name it was given, and
    then fills candidates of that search in their order, stopping somewhere:
    the filled candidates are a prefix of those the search yields.  It does
    nothing else: no pause, no message, no file. *)
Theorem lookup_searches_once_then_fills (scholarly : source) (coauthor : string)
    (pub_years : year_set) :
  exists filled_candidates,
    filled_candidates `prefix_of` yielded (search_author scholarly coauthor)
    /\ forall w,
         snd (lookup scholarly coauthor pub_years w) =
           {| log := (log w ++ CallSearchAuthor coauthor
                               :: List.map CallFill filled_candidates)%list;
              files := files w |}.
Proof.
  destruct (lookup_prefix scholarly coauthor pub_years) as (r & fc & Hprefix & Hlogs).
  exists fc. split; [done|]. intros w. by rewrite Hlogs.
Qed.

Lemma lookup_events_logs (scholarly : source) (coauthor : string)
    (pub_years : year_set) r evs :
  logs (lookup scholarly coauthor pub_years) r evs ->
  lookup_events scholarly coauthor pub_years = evs.
Proof. intros H. unfold lookup_events. by rewrite H. Qed.

Lemma validate_loop_trace (scholarly : source) (items : list (string * year_set))
    (acc : dict (string * pyval)) :
  NoDup (PyDict.keys items) ->
  (forall k, k ∈ PyDict.keys items -> k ∉ PyDict.keys acc) ->
  logs (validate_loop scholarly items acc)
       (Ok (acc ++ List.map (recorded scholarly) items)%list)
       (concat (List.map (entry_events scholarly) items)).
Proof.
  revert acc. induction items as [|[c ys] items IH]; intros acc Hnodup Hfresh.
  - cbn [validate_loop List.map concat]. rewrite app_nil_r. apply logs_ret.
  - cbn [PyDict.keys List.map fst] in Hnodup. apply NoDup_cons in Hnodup as [Hc Hnodup].
    assert (Hacc : c ∉ PyDict.keys acc) by (apply Hfresh; by left).
    destruct (lookup_logs scholarly ys c) as (r & evs & Hlookup).
    assert (Hnext : forall v : string * pyval,
               forall k, k ∈ PyDict.keys items -> k ∉ PyDict.keys (acc ++ [(c, v)])%list).
    { intros v k Hk. unfold PyDict.keys. rewrite map_app. cbn [List.map fst].
      rewrite not_elem_of_app, not_elem_of_cons. split; [|split].
      - apply Hfresh. by right.
      - intros ->. by apply Hc.
      - apply not_elem_of_nil. }
    cbn [validate_loop List.map concat].
    unfold entry_events at 1. cbn [fst snd].
    rewrite (lookup_events_logs _ _ _ _ _ Hlookup).
    rewrite (logs_outcome _ _ _ {| log := []; files := ∅ |} Hlookup).
    destruct r as [found|e].
    + eapply logs_bind.
      { apply logs_try_ok. eapply logs_bind; [apply Hlookup|]. cbv zeta.
        rewrite <- (app_nil_r [Sleep 1]).
        eapply logs_bind; [apply logs_emit|]. apply logs_ret. }
      rewrite keys_set_fresh by done.
      rewrite (recorded_ok scholarly c ys fresh_world found) by (by eapply logs_outcome).
      pose proof (IH (acc ++ [(c, found)])%list Hnodup (Hnext found)) as Hrest.
      rewrite <- app_assoc in Hrest. exact Hrest.
    + eapply logs_bind.
      { eapply logs_try_raise.
        - apply logs_bind_raise, Hlookup.
        - rewrite <- (app_nil_r [Print (MsgError c e)]).
          eapply logs_bind; [apply logs_emit|]. apply logs_ret. }
      rewrite keys_set_fresh by done.
      rewrite (recorded_raise scholarly c ys fresh_world e) by (by eapply logs_outcome).
      pose proof (IH (acc ++ [(c, placeholder)])%list Hnodup (Hnext placeholder)) as Hrest.
      rewrite <- app_assoc in Hrest. exact Hrest.
Qed.

Lemma searched_app (evs evs' : list event) :
  searched (evs ++ evs') = (searched evs ++ searched evs')%list.
Proof. unfold searched. by rewrite flat_map_app. Qed.

Lemma sleeps_app (evs evs' : list event) :
  sleeps (evs ++ evs') = (sleeps evs + sleeps evs')%nat.
Proof. unfold sleeps. by rewrite List.filter_app, length_app. Qed.

Lemma searched_fills (cs : list author_record) : searched (List.map CallFill cs) = [].
Proof. induction cs as [|c cs IH]; [done|]. exact IH. Qed.

Lemma sleeps_fills (cs : list author_record) : sleeps (List.map CallFill cs) = 0%nat.
Proof. induction cs as [|c cs IH]; [done|]. exact IH. Qed.

Lemma entry_events_searched (scholarly : source) (entry : string * year_set) :
  searched (entry_events scholarly entry) = [fst entry]
  /\ sleeps (entry_events scholarly entry)
     = (if returns_normally scholarly entry then 1 else 0)%nat.
Proof.
  destruct entry as [c ys]. unfold entry_events, returns_normally. cbn [fst snd].
  destruct (lookup_prefix scholarly c ys) as (r & fc & _ & Hlogs).
  rewrite (lookup_events_logs _ _ _ _ _ Hlogs).
  rewrite searched_app, sleeps_app.
  change (searched (CallSearchAuthor c :: List.map CallFill fc))
    with (c :: searched (List.map CallFill fc)).
  change (sleeps (CallSearchAuthor c :: List.map CallFill fc))
    with (sleeps (List.map CallFill fc)).
  rewrite searched_fills, sleeps_fills.
  by destruct (outcome (lookup scholarly c ys) {| log := []; files := ∅ |}).
Qed.

(** X11.  The batch adds to the log its opening message and then, for each
    co-author in the order of the mapping, the events of that co-author's
    lookup followed by a pause of one second when the lookup returned, or by
    the error message when it raised; it touches no file.  So every
    co-author is searched for exactly once, under the key the mapping holds
    (the cleaned-up name), in mapping order, and the number of pauses is the
    number of lookups that returned: a lookup that raised is followed by no
    pause. *)
Theorem batch_trace (scholarly : source) (coauthors_with_years : dict year_set)
    (w : world) :
  PyDict.wf coauthors_with_years ->
  _get_validated_affiliations scholarly coauthors_with_years w =
    (Ok (List.map (recorded scholarly) coauthors_with_years),
     {| log := (log w ++ Print (MsgValidating (length coauthors_with_years))
                         :: concat (List.map (entry_events scholarly)
                                      coauthors_with_years))%list;
        files := files w |})
  /\ searched (concat (List.map (entry_events scholarly) coauthors_with_years))
     = PyDict.keys coauthors_with_years
  /\ sleeps (concat (List.map (entry_events scholarly) coauthors_with_years))
     = length (List.filter (returns_normally scholarly) coauthors_with_years).
Proof.
  intros Hwf. split; [|split].
  - unfold _get_validated_affiliations.
    rewrite (bind_logs_ok _ _ tt [Print (MsgValidating (length coauthors_with_years))])
      by apply logs_emit.
    rewrite (validate_loop_trace scholarly coauthors_with_years [] Hwf)
      by (intros k _; apply not_elem_of_nil).
    cbn [log files app]. by rewrite <- app_assoc.
  - clear Hwf. induction coauthors_with_years as [|entry d IH]; [done|].
    cbn [List.map concat PyDict.keys]. rewrite searched_app.
    rewrite (proj1 (entry_events_searched scholarly entry)).
    cbn [app]. f_equal. exact IH.
  - clear Hwf. induction coauthors_with_years as [|entry d IH]; [done|].
    cbn [List.map concat List.filter]. rewrite sleeps_app.
    rewrite (proj2 (entry_events_searched scholarly entry)), IH.
    by destruct (returns_normally scholarly entry).
Qed.

Lemma batch_trace_witness :
  _get_validated_affiliations failing_source
    [("D, C", {[VStr "2023"]}); ("F, E", {[VStr "2021"]})] fresh_world
  = (Ok [("D, C", ("Unknown Institution", VStr "Unknown"));
         ("F, E", ("Unknown Institution", VStr "Unknown"))],
     {| log := [Print (MsgValidating 2);
                CallSearchAuthor "D, C";
                Print (MsgError "D, C" (SourceError "search failed"));
                CallSearchAuthor "F, E";
                Print (MsgError "F, E" (SourceError "search failed"))];
        files := ∅ |}).
Proof.
  refine (eq_trans (proj1 (batch_trace failing_source
                             [("D, C", {[VStr "2023"]}); ("F, E", {[VStr "2021"]})]
                             fresh_world _)) _).
  - unfold PyDict.wf. apply NoDup_cons. split; [|apply NoDup_singleton].
    intros H%list_elem_of_singleton. discriminate.
  - vm_compute. reflexivity.
Defined.

(** ** The order of the extraction mapping *)

Lemma keys_set (k : string) (v : year_set) (d : dict year_set) :
  PyDict.keys (PyDict.set k v d)
  = if decide (k ∈ PyDict.keys d) then PyDict.keys d else (PyDict.keys d ++ [k])%list.
Proof.
  case_decide.
  - by apply keys_set_present.
  - rewrite keys_set_fresh by done. unfold PyDict.keys. by rewrite map_app.
Qed.

Lemma keys_record_coauthors (my_name : option string) (paper_year : pyval)
    (coauthors : list string) (u : dict year_set) :
  PyDict.keys (record_coauthors my_name paper_year coauthors u)
  = add_keys (PyDict.keys u)
      (List.filter (fun c => bool_decide (Some c <> my_name)) coauthors).
Proof.
  revert u. induction coauthors as [|c cs IH]; intros u; [done|].
  cbn [record_coauthors List.filter].
  destruct (decide (Some c = my_name)) as [Hme|Hother].
  - rewrite bool_decide_eq_false_2 by (intros H; by apply H). apply IH.
  - rewrite bool_decide_eq_true_2 by done. rewrite IH.
    unfold add_keys. cbn [List.fold_left]. f_equal.
    destruct (PyDict.get c u); apply keys_set.
Qed.

Lemma add_keys_app (ks l l' : list string) :
  add_keys ks (l ++ l') = add_keys (add_keys ks l) l'.
Proof. unfold add_keys. by rewrite fold_left_app. Qed.

Lemma keys_record_papers (my_name : option string) (bibs : list bib_entry)
    (u : dict year_set) :
  PyDict.keys (record_papers my_name bibs u)
  = add_keys (PyDict.keys u) (listed_coauthors my_name bibs).
Proof.
  revert u. unfold record_papers, listed_coauthors.
  induction bibs as [|b bibs IH]; intros u; [done|].
  cbn [List.fold_left List.map concat]. rewrite IH, List.filter_app, add_keys_app.
  f_equal. unfold record_paper, coauthors_of.
  destruct (author b); [apply keys_record_coauthors|done].
Qed.

Lemma filter_filter_bool {A} (f g : A -> bool) (l : list A) :
  List.filter f (List.filter g l) = List.filter (fun x => f x && g x) l.
Proof.
  induction l as [|x l IH]; [done|]. cbn [List.filter].
  destruct (g x); cbn [List.filter]; rewrite IH.
  - by rewrite andb_true_r.
  - by rewrite andb_false_r.
Qed.

Lemma add_keys_first_occurrences (ks names : list string) :
  add_keys ks names
  = (ks ++ List.filter (fun m => bool_decide (m ∉ ks)) (first_occurrences names))%list.
Proof.
  revert ks. induction names as [|n rest IH]; intros ks.
  - cbn [first_occurrences List.filter]. by rewrite app_nil_r.
  - unfold add_keys. cbn [List.fold_left first_occurrences List.filter].
    fold (add_keys (if decide (n ∈ ks) then ks else (ks ++ [n])%list) rest).
    rewrite IH. destruct (decide (n ∈ ks)) as [Hin|Hout].
    + rewrite bool_decide_eq_false_2 by (intros H; by apply H).
      f_equal. rewrite filter_filter_bool. apply filter_ext. intros m.
      destruct (bool_decide (m ∉ ks)) eqn:Hm; [|done]. cbn [andb].
      symmetry. apply bool_decide_eq_true_2. intros ->.
      apply bool_decide_eq_true_1 in Hm. by apply Hm.
    + rewrite bool_decide_eq_true_2 by done.
      rewrite <- app_assoc. cbn [app]. do 2 f_equal.
      rewrite filter_filter_bool. apply filter_ext. intros m.
      apply eq_true_iff_eq. rewrite andb_true_iff, !bool_decide_eq_true.
      rewrite not_elem_of_app, list_elem_of_singleton. tauto.
Qed.

(** X12.  The extraction mapping lists the co-authors in the order in which
    they first appear when the author fields of the retained publications
    are read one after the other, the subject's own entries left out; its
    keys are the cleaned-up forms of those names.  This is the order of the
    lines of the export. *)
Theorem coauthors_in_order_of_first_appearance (int_of_str : string -> option Z)
    (scholarly : source) (current_year : Z) (papers : list paper) (year_cutoff : Z)
    (my_name : option string) (filtered : list paper) (bibs : list bib_entry)
    (w : world) :
  filtered_papers int_of_str current_year year_cutoff papers = Ok filtered ->
  filled_bibs scholarly filtered = Ok bibs ->
  exists d w',
    _get_unique_coauthors int_of_str scholarly current_year papers year_cutoff my_name w
      = (Ok d, w')
    /\ PyDict.keys d
       = List.map reordered_name (first_occurrences (listed_coauthors my_name bibs)).
Proof.
  intros Hfiltered Hbibs.
  destruct (get_unique_coauthors_logs int_of_str scholarly my_name
              current_year papers year_cutoff) as (evs & Hrun).
  rewrite Hfiltered, Hbibs in Hrun.
  eexists _, _. split; [apply Hrun|].
  rewrite keys_renamed, keys_record_papers, add_keys_first_occurrences.
  cbn [PyDict.keys List.map app]. f_equal.
  rewrite <- (filter_ext (fun _ => true)).
  - induction (first_occurrences (listed_coauthors my_name bibs)) as [|x l IH]; [done|].
    cbn [List.filter]. by rewrite IH.
  - intros m. symmetry. apply bool_decide_eq_true_2, not_elem_of_nil.
Qed.

Lemma coauthors_in_order_of_first_appearance_witness :
  exists d w',
    _get_unique_coauthors decimal quiet_source 2024
      [mk_paper (Some (VStr "2023")) (Some "E F and A B and C D");
       mk_paper (Some (VStr "2022")) (Some "C D and A B and G H and E F")]
      2020 (Some "A B") fresh_world = (Ok d, w')
    /\ PyDict.keys d = ["F, E"; "D, C"; "H, G"].
Proof.
  destruct (coauthors_in_order_of_first_appearance decimal quiet_source 2024
              [mk_paper (Some (VStr "2023")) (Some "E F and A B and C D");
               mk_paper (Some (VStr "2022")) (Some "C D and A B and G H and E F")]
              2020 (Some "A B")
              [mk_paper (Some (VStr "2023")) (Some "E F and A B and C D");
               mk_paper (Some (VStr "2022")) (Some "C D and A B and G H and E F")]
              [{| title := None; pub_year := Some (VStr "2023");
                  author := Some "E F and A B and C D" |};
               {| title := None; pub_year := Some (VStr "2022");
                  author := Some "C D and A B and G H and E F" |}]
              fresh_world eq_refl eq_refl)
    as (d & w' & Hrun & Hkeys).
  exists d, w'. split; [exact Hrun|]. rewrite Hkeys. vm_compute. reflexivity.
Defined.

(** ** Splitting on any separator *)

Section AnySeparator.

Variable sep : string.
Hypothesis sep_nonempty : sep <> EmptyString.

Lemma split_from_skip (k : nat) (s : string) :
  (k <= String.length s)%nat ->
  PyStr.split_from sep k s = PyStr.split_from sep 0 (drop_chars k s).
Proof.
  revert k. induction s as [|c s IH]; intros k Hk.
  - destruct k; [done|]. cbn in Hk. lia.
  - destruct k as [|k]; [done|]. cbn [PyStr.split_from drop_chars].
    apply IH. cbn in Hk. lia.
Qed.

Lemma prefix_drop (s : string) :
  String.prefix sep s = true -> s = sep ++ drop_chars (String.length sep) s.
Proof.
  clear sep_nonempty. revert s. induction sep as [|a t IH]; intros s.
  - done.
  - destruct s as [|b s]; [done|]. cbn [String.prefix String.length drop_chars].
    destruct (ascii_dec a b) as [->|]; [|done].
    intros Hp. change (String b t ++ drop_chars (String.length t) s)
      with (String b (t ++ drop_chars (String.length t) s)).
    f_equal. by apply IH.
Qed.

Lemma prefix_length (s : string) :
  String.prefix sep s = true -> (String.length sep <= String.length s)%nat.
Proof.
  clear sep_nonempty. revert s. induction sep as [|a t IH]; intros s.
  - cbn. lia.
  - destruct s as [|b s]; [done|]. cbn [String.prefix String.length].
    destruct (ascii_dec a b); [|done]. intros Hp. apply IH in Hp. lia.
Qed.

Lemma drop_chars_length (k : nat) (s : string) :
  String.length (drop_chars k s) = (String.length s - k)%nat.
Proof.
  revert k. induction s as [|c s IH]; intros [|k]; cbn [drop_chars String.length];
    try done.
  all: by rewrite IH.
Qed.

Lemma split_from_nonempty (k : nat) (s : string) : PyStr.split_from sep k s <> [].
Proof.
  revert k. induction s as [|c s IH]; intros k; [done|].
  cbn [PyStr.split_from]. destruct k as [|k]; [|apply IH].
  destruct (String.prefix sep (String c s)); [done|].
  by destruct (PyStr.split_from sep 0 s).
Qed.

(** Where the separator starts the string, the first part is empty and the
    rest is split on its own. *)
Lemma split_at_separator (s : string) :
  String.prefix sep s = true ->
  PyStr.split sep s
  = EmptyString :: PyStr.split sep (drop_chars (String.length sep) s).
Proof.
  intros Hp. pose proof (prefix_length s Hp) as Hlen.
  destruct s as [|c s].
  - destruct sep; [done|]. cbn in Hlen. lia.
  - unfold PyStr.split. cbn [PyStr.split_from]. rewrite Hp. f_equal.
    rewrite split_from_skip by (cbn in Hlen; lia).
    destruct sep as [|a t]; [done|].
    cbn [String.length drop_chars Nat.sub]. by rewrite Nat.sub_0_r.
Qed.

Lemma join_split_any_length (n : nat) (s : string) :
  (String.length s <= n)%nat -> PyStr.join sep (PyStr.split sep s) = s.
Proof.
  revert s. induction n as [|n IH]; intros s Hn.
  - destruct s; [done|]. cbn in Hn. lia.
  - destruct s as [|c s]; [done|].
    destruct (String.prefix sep (String c s)) eqn:Hp.
    + rewrite split_at_separator by done.
      pose proof (prefix_drop _ Hp) as Hs.
      set (rest := drop_chars (String.length sep) (String c s)) in *.
      assert (Hrest : PyStr.join sep (PyStr.split sep rest) = rest).
      { apply IH. subst rest. rewrite drop_chars_length.
        destruct sep; [done|]. cbn [String.length] in *. lia. }
      pose proof (split_from_nonempty 0 rest) as Hne.
      unfold PyStr.join, PyStr.split in *.
      destruct (PyStr.split_from sep 0 rest) as [|part parts]; [done|].
      change (String.concat sep (EmptyString :: part :: parts))
        with (sep ++ String.concat sep (part :: parts)).
      by rewrite Hrest.
    + assert (Htail : PyStr.join sep (PyStr.split sep s) = s)
        by (apply IH; cbn in Hn; lia).
      pose proof (split_from_nonempty 0 s) as Hne.
      unfold PyStr.join, PyStr.split in *. cbn [PyStr.split_from]. rewrite Hp.
      destruct (PyStr.split_from sep 0 s) as [|part parts]; [done|].
      rewrite <- Htail. by destruct parts.
Qed.

End AnySeparator.

(** X13.  Splitting loses no text: for every non-empty separator, joining
    the parts of a string with the separator gives the string back.  So the
    author names cut out of an author field, joined with " and ", are that
    field, and the parts of a name, joined with single spaces, are that
    name; an author field is never cut into no names at all. *)
Theorem split_then_join_is_identity (sep s : string) :
  sep <> EmptyString ->
  PyStr.join sep (PyStr.split sep s) = s
  /\ PyStr.split sep s <> []
  /\ (forall b authors, author b = Some authors ->
        PyStr.join " and " (coauthors_of b) = authors /\ coauthors_of b <> []).
Proof.
  intros Hsep. split; [|split].
  - by apply (join_split_any_length sep Hsep (String.length s)).
  - apply split_from_nonempty.
  - intros b authors Hb. unfold coauthors_of. rewrite Hb. split.
    + assert (Hand : " and " <> EmptyString) by discriminate.
      by apply (join_split_any_length " and " Hand (String.length authors)).
    + apply split_from_nonempty.
Qed.

Lemma split_then_join_is_identity_witness :
  PyStr.join " and " (PyStr.split " and " "A B and C D and  and E F and ")
  = "A B and C D and  and E F and ".
Proof.
  apply (split_then_join_is_identity " and " "A B and C D and  and E F and ").
  discriminate.
Defined.

(** ** The latest year of ordinary year strings *)

Lemma digit_value_range (c : ascii) (d : Z) :
  digit_value c = Some d -> d = Z.of_N (N_of_ascii c) - 48 /\ 0 <= d <= 9.
Proof.
  unfold digit_value. cbv zeta. unfold nat_of_ascii. rewrite N_nat_Z.
  destruct ((48 <=? Z.of_N (N_of_ascii c)) && (Z.of_N (N_of_ascii c) <=? 57)) eqn:Hr;
    [|done].
  intros [= <-]. apply andb_true_iff in Hr as [H1 H2].
  apply Z.leb_le in H1, H2. lia.
Qed.

Lemma digits_value_spec (s : string) :
  all_digits s ->
  exists v, 0 <= v < 10 ^ Z.of_nat (String.length s)
            /\ forall acc, digits_value acc s
                           = Some (acc * 10 ^ Z.of_nat (String.length s) + v).
Proof.
  induction s as [|c s IH]; intros Hs.
  - exists 0. split; [cbn; lia|]. intros acc. cbn. f_equal. lia.
  - destruct Hs as [[d Hd] Hs]. destruct (IH Hs) as (v & Hv & Hacc).
    destruct (digit_value_range c d Hd) as [_ Hrange].
    cbn [String.length]. rewrite Nat2Z.inj_succ, Z.pow_succ_r by lia.
    exists (d * 10 ^ Z.of_nat (String.length s) + v). split; [nia|].
    intros acc. cbn [digits_value]. rewrite Hd, Hacc. f_equal. lia.
Qed.

(** Digit strings of one length are ordered as the numbers they denote. *)
Lemma compare_digit_strings (a b : string) (va vb : Z) :
  String.length a = String.length b -> all_digits a -> all_digits b ->
  digits_value 0 a = Some va -> digits_value 0 b = Some vb ->
  String.compare a b = Z.compare va vb.
Proof.
  revert b va vb. induction a as [|c a IH]; intros [|d b] va vb Hlen Ha Hb Hva Hvb;
    try done.
  - cbn in Hva, Hvb. injection Hva as <-. injection Hvb as <-. done.
  - destruct Ha as [[ca Hca] Ha], Hb as [[cb Hcb] Hb].
    cbn [String.length] in Hlen. injection Hlen as Hlen.
    destruct (digits_value_spec a Ha) as (ra & Hra & Haacc).
    destruct (digits_value_spec b Hb) as (rb & Hrb & Hbacc).
    cbn [digits_value] in Hva, Hvb. rewrite Hca, Haacc in Hva. rewrite Hcb, Hbacc in Hvb.
    injection Hva as <-. injection Hvb as <-.
    destruct (digit_value_range c ca Hca) as [Hca' Hca''].
    destruct (digit_value_range d cb Hcb) as [Hcb' Hcb''].
    rewrite <- Hlen in *.
    cbn [String.compare]. unfold Ascii.compare. rewrite <- N2Z.inj_compare.
    destruct (Z.compare_spec (Z.of_N (N_of_ascii c)) (Z.of_N (N_of_ascii d)))
      as [Heq|Hlt|Hgt].
    + rewrite (IH b ra rb Hlen Ha Hb).
      * symmetry. destruct (Z.compare_spec ra rb) as [?|?|?].
        -- apply Z.compare_eq_iff. nia.
        -- apply Z.compare_lt_iff. nia.
        -- apply Z.compare_gt_iff. nia.
      * rewrite Haacc; f_equal; lia.
      * rewrite Hbacc; f_equal; lia.
    + symmetry. apply Z.compare_lt_iff. nia.
    + symmetry. apply Z.compare_gt_iff. nia.
Qed.

(** X14.  For a non-empty year-set whose years are all digit strings of one
    length (such as four-digit years) the latest year is the numerically
    greatest one: [max] returns a year of the set whose number no year of
    the set exceeds, and that is the year a lookup that returns normally
    stores. *)
Theorem latest_year_is_numerically_greatest (scholarly : source) (coauthor : string)
    (pub_years : year_set) (n : nat) :
  pub_years <> ∅ ->
  (forall y, y ∈ pub_years ->
             exists s, y = VStr s /\ all_digits s /\ String.length s = n) ->
  exists m vm,
    py_max pub_years = Ok (VStr m)
    /\ VStr m ∈ pub_years
    /\ digits_value 0 m = Some vm
    /\ (forall s, VStr s ∈ pub_years ->
                  exists v, digits_value 0 s = Some v /\ v <= vm)
    /\ (forall w validated latest,
          outcome (lookup scholarly coauthor pub_years) w = Ok (validated, latest) ->
          latest = VStr m).
Proof.
  intros Hne Hall.
  assert (Hmax : exists m0, py_max pub_years = Ok m0).
  { unfold py_max. destruct (elements pub_years) as [|first rest] eqn:Hels.
    - apply elements_empty_inv in Hels. apply leibniz_equiv in Hels. done.
    - apply max_from_ok. apply Forall_forall. intros y Hy.
      assert (Hfirst : first ∈ pub_years)
        by (apply elem_of_elements; rewrite Hels; by left).
      assert (Hy' : y ∈ pub_years)
        by (apply elem_of_elements; rewrite Hels; by right).
      destruct (Hall _ Hfirst) as (? & -> & _), (Hall _ Hy') as (? & -> & _). done. }
  destruct Hmax as [m0 Hm0].
  destruct (py_max_greatest pub_years m0 Hm0) as [Hin Hgreatest].
  destruct (Hall _ Hin) as (m & -> & Hm & Hmlen).
  destruct (digits_value_spec m Hm) as (vm & _ & Hvm).
  exists m, (0 * 10 ^ Z.of_nat (String.length m) + vm).
  split; [done|]. split; [done|]. split; [apply Hvm|]. split.
  - intros s Hs. destruct (Hall _ Hs) as (s' & [= <-] & Hdigits & Hslen).
    destruct (digits_value_spec s Hdigits) as (v & _ & Hv).
    eexists. split; [apply Hv|].
    pose proof (Hgreatest _ Hs) as Hgt. cbn [py_gt] in Hgt. injection Hgt as Hgt.
    unfold String.ltb in Hgt.
    rewrite (compare_digit_strings m s _ _ (eq_trans Hmlen (eq_sym Hslen))
               Hm Hdigits (Hvm 0) (Hv 0)) in Hgt.
    destruct (Z.compare_spec (0 * 10 ^ Z.of_nat (String.length m) + vm)
                (0 * 10 ^ Z.of_nat (String.length s) + v)); [lia|done|lia].
  - intros w validated latest Hok.
    pose proof (lookup_latest _ _ _ _ _ _ Hok) as Hlatest. unfold latest_of in Hlatest.
    rewrite decide_False in Hlatest by done. congruence.
Qed.

Lemma latest_year_is_numerically_greatest_witness :
  exists m vm,
    py_max {[VStr "2019"; VStr "2023"; VStr "2021"]} = Ok (VStr m)
    /\ VStr m ∈ ({[VStr "2019"; VStr "2023"; VStr "2021"]} : year_set)
    /\ digits_value 0 m = Some vm
    /\ (forall s, VStr s ∈ ({[VStr "2019"; VStr "2023"; VStr "2021"]} : year_set) ->
                  exists v, digits_value 0 s = Some v /\ v <= vm)
    /\ (forall w validated latest,
          outcome (lookup quiet_source "D, C" {[VStr "2019"; VStr "2023"; VStr "2021"]}) w
            = Ok (validated, latest) ->
          latest = VStr m).
Proof.
  apply (latest_year_is_numerically_greatest quiet_source "D, C"
           {[VStr "2019"; VStr "2023"; VStr "2021"]} 4).
  - clear. set_solver.
  - clear. intros y Hy.
    apply elem_of_union in Hy as [Hy|Hy];
      [apply elem_of_union in Hy as [Hy|Hy]|];
      apply elem_of_singleton in Hy as ->;
      eexists; (split; [reflexivity|]); (split; [|reflexivity]);
      repeat split; by eexists.
Defined.

(** X15.  Every entry of the mapping the extraction stage returns has at
    least one recorded year.  So for the co-authors of a run the default
    "Unknown" for an empty year-set is never used: the latest year of a
    lookup that returns normally is always the [max] of the year-set. *)
Theorem extracted_year_sets_nonempty (int_of_str : string -> option Z)
    (scholarly : source) (current_year : Z) (papers : list paper) (year_cutoff : Z)
    (my_name : option string) (w w' : world) (d : dict year_set) :
  _get_unique_coauthors int_of_str scholarly current_year papers year_cutoff my_name w
    = (Ok d, w') ->
  forall key years,
    (key, years) ∈ d ->
    years <> ∅
    /\ forall w0 validated latest,
         outcome (lookup scholarly key years) w0 = Ok (validated, latest) ->
         py_max years = Ok latest.
Proof.
  intros Hrun key years Hin.
  destruct (get_unique_coauthors_logs int_of_str scholarly my_name
              current_year papers year_cutoff) as (evs & Hlogs).
  rewrite Hlogs in Hrun.
  destruct (filtered_papers _ _ _ papers) as [filtered|]; [|done].
  destruct (filled_bibs scholarly filtered) as [bibs|]; [|done].
  injection Hrun as <- _.
  apply list_elem_of_fmap in Hin as ([raw ys] & [= -> ->] & Hin).
  assert (Hget : PyDict.get raw (record_papers my_name bibs []) = Some ys).
  { apply elem_get_Some; [|done]. apply wf_record_papers, NoDup_nil_2. }
  rewrite get_record_papers in Hget. cbn [PyDict.get] in Hget.
  unfold add_years in Hget.
  assert (Hne : ys <> ∅).
  { destruct (decide ((if decide (Some raw = my_name) then ∅
                       else years_with raw bibs) = ∅)) as [|Hsome]; [done|].
    injection Hget as <-. cbn [from_option id]. set_solver. }
  split; [exact Hne|].
  intros w0 validated latest Hok.
  pose proof (lookup_latest _ _ _ _ _ _ Hok) as Hlatest. unfold latest_of in Hlatest.
  by rewrite decide_False in Hlatest.
Qed.

Lemma extracted_year_sets_nonempty_witness :
  ({[VStr "2023"]} : year_set) <> ∅
  /\ forall w0 validated latest,
       outcome (lookup quiet_source "D, C" {[VStr "2023"]}) w0 = Ok (validated, latest) ->
       py_max {[VStr "2023"]} = Ok latest.
Proof.
  apply (extracted_year_sets_nonempty decimal quiet_source 2024
           [mk_paper (Some (VStr "2023")) (Some "A B and C D")] 2020 (Some "A B")
           fresh_world
           (snd (_get_unique_coauthors decimal quiet_source 2024
                   [mk_paper (Some (VStr "2023")) (Some "A B and C D")] 2020
                   (Some "A B") fresh_world))
           [("D, C", {[VStr "2023"]})]).
  - vm_compute. reflexivity.
  - by left.
Defined.

(** X16.  The latest year does not depend on the order in which the set of
    years is iterated: taking [max] over the years enumerated in any order
    gives what [max] over the set gives, the same year or the same
    [TypeError]. *)
Theorem latest_year_independent_of_set_order (pub_years : year_set)
    (first : pyval) (rest : list pyval) :
  first :: rest ≡ₚ elements pub_years ->
  max_from first rest = py_max pub_years.
Proof.
  intros Hperm. unfold py_max.
  destruct (elements pub_years) as [|first' rest'] eqn:Hels.
  - by apply Permutation_nil_r in Hperm.
  - by apply max_from_permutation.
Qed.

Lemma latest_year_independent_of_set_order_witness :
  max_from (VStr "2021") [VStr "2023"; VStr "2019"]
  = py_max {[VStr "2019"; VStr "2021"; VStr "2023"]}.
Proof.
  apply (latest_year_independent_of_set_order
           {[VStr "2019"; VStr "2021"; VStr "2023"]} (VStr "2021")
           [VStr "2023"; VStr "2019"]).
  apply NoDup_Permutation.
  - repeat (apply NoDup_cons; split; [clear; set_solver|]). apply NoDup_nil_2.
  - apply NoDup_elements.
  - intros y. rewrite elem_of_elements. clear. set_solver.
Defined.

(** ** The log of a successful run *)

Lemma get_unique_coauthors_trace (int_of_str : string -> option Z)
    (scholarly : source) (current_year : Z) (papers : list paper) (year_cutoff : Z)
    (my_name : option string) (filtered : list paper) (bibs : list bib_entry) :
  filtered_papers int_of_str current_year year_cutoff papers = Ok filtered ->
  filled_bibs scholarly filtered = Ok bibs ->
  logs (_get_unique_coauthors int_of_str scholarly current_year papers year_cutoff my_name)
       (Ok (List.map renamed (record_papers my_name bibs [])))
       (Print (MsgProcessing (length filtered) year_cutoff)
          :: List.map CallFillBib filtered).
Proof.
  intros Hfiltered Hbibs. unfold _get_unique_coauthors. rewrite Hfiltered.
  change (Print (MsgProcessing (length filtered) year_cutoff)
            :: List.map CallFillBib filtered)
    with ([] ++ ([Print (MsgProcessing (length filtered) year_cutoff)]
                 ++ List.map CallFillBib filtered))%list.
  eapply logs_bind; [apply logs_lift|].
  eapply logs_bind; [apply logs_emit|].
  rewrite <- (app_nil_r (List.map CallFillBib filtered)).
  eapply logs_bind; [by apply extract_loop_fills|].
  rewrite rename_keys_renamed by (apply wf_record_papers, NoDup_nil_2).
  apply logs_ret.
Qed.

Lemma get_validated_affiliations_trace (scholarly : source) (d : dict year_set) :
  PyDict.wf d ->
  logs (_get_validated_affiliations scholarly d)
       (Ok (List.map (recorded scholarly) d))
       (Print (MsgValidating (length d))
          :: concat (List.map (entry_events scholarly) d)).
Proof.
  intros Hwf. unfold _get_validated_affiliations.
  change (Print (MsgValidating (length d)) :: concat (List.map (entry_events scholarly) d))
    with ([Print (MsgValidating (length d))]
          ++ concat (List.map (entry_events scholarly) d))%list.
  eapply logs_bind; [apply logs_emit|].
  apply (validate_loop_trace scholarly d [] Hwf).
  intros k _. apply not_elem_of_nil.
Qed.





(** ** Runs that stop short *)

(** X18.  An author record or a filled profile that is an empty dictionary
    counts as no profile at all.  When the identifier search returns an empty
    record, it is not filled; when it returns a non-empty record whose fill
    comes back empty, the fill is the last call to the source.  Either way
    the run reports "No profile found", returns normally and writes no
    file. *)
Theorem empty_records_count_as_no_profile (int_of_str : string -> option Z)
    (scholarly : source) (open_error : string -> option exn)
    (now_year : Z) (args : arguments) (a : author_record) (w : world) :
  search_author_id scholarly (scholar_id args) = Ok (Some a) ->
  (truthy a = false ->
   get_scholar_profile scholarly (scholar_id args) w =
     (Ok None,
      {| log := (log w ++ [CallSearchAuthorId (scholar_id args)])%list;
         files := files w |})
   /\ main int_of_str scholarly open_error now_year args w =
        (Ok tt,
         {| log := (log w ++ [Print (MsgRetrieving (scholar_id args));
                              CallSearchAuthorId (scholar_id args);
                              Print MsgNoProfile])%list;
            files := files w |}))
  /\ (forall profile,
        truthy a = true ->
        fill scholarly a = Ok profile ->
        truthy profile = false ->
        main int_of_str scholarly open_error now_year args w =
          (Ok tt,
           {| log := (log w ++ [Print (MsgRetrieving (scholar_id args));
                                CallSearchAuthorId (scholar_id args);
                                CallFill a;
                                Print MsgNoProfile])%list;
              files := files w |})).
Proof.
  intros Hsearch. split.
  - intros Ha. split.
    + unfold get_scholar_profile, bind, emit, lift, ret.
      rewrite Hsearch. cbn [log files]. by rewrite Ha.
    + unfold main, get_scholar_profile, bind, print, emit, lift, ret.
      rewrite Hsearch. cbn [log files]. rewrite Ha. cbn [log files].
      by rewrite <- !app_assoc.
  - intros profile Ha Hfill Hprofile.
    unfold main.
    rewrite (bind_logs_ok _ _ tt [Print (MsgRetrieving (scholar_id args))])
      by apply logs_emit.
    rewrite (bind_logs_ok _ _ _ _ _ (get_scholar_profile_logs _ _ _ _ Hsearch Ha Hfill)).
    rewrite Hprofile. unfold print, emit. cbn [log files].
    by rewrite <- !app_assoc.
Qed.

Lemma empty_records_count_as_no_profile_witness :
  main decimal (source_with_profile empty_record) always_writable 2024
    default_arguments fresh_world =
    (Ok tt,
     {| log := [Print (MsgRetrieving "3HU8c9EAAAAJ");
                CallSearchAuthorId "3HU8c9EAAAAJ";
                Print MsgNoProfile];
        files := ∅ |}).
Proof.
  exact (proj2 (proj1 (empty_records_count_as_no_profile decimal
                         (source_with_profile empty_record) always_writable 2024
                         default_arguments empty_record fresh_world eq_refl)
                  eq_refl)).
Defined.

(** X19.  The output file is opened only after every lookup has been made.
    When a non-empty author record is found and the extraction stage succeeds
    but the output name cannot be opened for writing, the run ends with the
    error of [open]: the whole batch of lookups and pauses has taken place,
    no file is written or changed, and the closing message is not printed. *)
Theorem unwritable_output_loses_the_lookups (int_of_str : string -> option Z)
    (scholarly : source) (open_error : string -> option exn)
    (now_year : Z) (args : arguments)
    (a profile : author_record) (papers filtered : list paper)
    (bibs : list bib_entry) (e : exn) (w : world) :
  search_author_id scholarly (scholar_id args) = Ok (Some a) ->
  truthy a = true ->
  fill scholarly a = Ok profile ->
  publications profile = Some papers ->
  filtered_papers int_of_str now_year (now_year - years_back args) papers = Ok filtered ->
  filled_bibs scholarly filtered = Ok bibs ->
  open_error (output args) = Some e ->
  main int_of_str scholarly open_error now_year args w =
    (Raise e,
     {| log :=
          (log w ++
           [Print (MsgRetrieving (scholar_id args));
            CallSearchAuthorId (scholar_id args);
            CallFill a;
            Print (MsgProfileFound (name profile));
            Print (MsgExtracting (now_year - years_back args));
            Print (MsgProcessing (length filtered) (now_year - years_back args))]
           ++ List.map CallFillBib filtered
           ++ [Print MsgValidatingAffiliations;
               Print (MsgValidating (length (record_papers (name profile) bibs [])))]
           ++ concat (List.map (entry_events scholarly)
                        (List.map renamed (record_papers (name profile) bibs []))))%list;
        files := files w |}).
Proof.
  intros Hsearch Ha Hfill Hpubs Hfiltered Hbibs Hopen.
  set (d := List.map renamed (record_papers (name profile) bibs [])).
  assert (Hwf : PyDict.wf d).
  { unfold PyDict.wf, d. rewrite keys_renamed.
    assert (Hinj : Inj (=) (=) reordered_name)
      by (intros x y; apply reordered_name_inj).
    apply (NoDup_fmap_2 reordered_name).
    apply (wf_record_papers (name profile) bibs []), NoDup_nil_2. }
  unfold main.
  rewrite (bind_logs_ok _ _ tt [Print (MsgRetrieving (scholar_id args))])
    by apply logs_emit.
  rewrite (bind_logs_ok _ _ _ _ _ (get_scholar_profile_logs _ _ _ _ Hsearch Ha Hfill)).
  rewrite (truthy_publications _ _ Hpubs). cbv zeta.
  rewrite (bind_logs_ok _ _ tt [Print (MsgProfileFound (name profile))])
    by apply logs_emit.
  rewrite (bind_logs_ok _ _ tt [Print (MsgExtracting (now_year - years_back args))])
    by apply logs_emit.
  rewrite Hpubs. cbn [item].
  rewrite (bind_logs_ok _ _ papers []) by apply logs_lift.
  rewrite (bind_logs_ok _ _ _ _ _
             (get_unique_coauthors_trace int_of_str scholarly now_year papers
                (now_year - years_back args) (name profile) filtered bibs
                Hfiltered Hbibs)).
  rewrite (bind_logs_ok _ _ tt [Print MsgValidatingAffiliations]) by apply logs_emit.
  rewrite (bind_logs_ok _ _ _ _ _ (get_validated_affiliations_trace scholarly d Hwf)).
  rewrite (save_coa_tsv_unwritable open_error _ _ _ e Hopen). cbn [log files].
  unfold d. rewrite !length_map. rewrite <- !app_assoc. reflexivity.
Qed.

Lemma unwritable_output_loses_the_lookups_witness :
  exists w',
    main decimal (source_with_profile two_paper_profile) never_writable 2024
      default_arguments fresh_world = (Raise (OSError "NSF_COA.tsv"), w')
    /\ searched (log w') = ["D, C"]
    /\ files w' = ∅.
Proof.
  eexists. split; [|split].
  - exact (unwritable_output_loses_the_lookups decimal
             (source_with_profile two_paper_profile) never_writable 2024
             default_arguments two_paper_profile two_paper_profile
             [mk_paper (Some (VStr "2023")) (Some "A B and C D");
              mk_paper (Some (VStr "2020")) (Some "A B")]
             [mk_paper (Some (VStr "2023")) (Some "A B and C D");
              mk_paper (Some (VStr "2020")) (Some "A B")]
             [{| title := None; pub_year := Some (VStr "2023");
                 author := Some "A B and C D" |};
              {| title := None; pub_year := Some (VStr "2020");
                 author := Some "A B" |}]
             (OSError "NSF_COA.tsv") fresh_world
             eq_refl eq_refl eq_refl eq_refl eq_refl eq_refl eq_refl).
  - vm_compute. reflexivity.
  - reflexivity.
Defined.
